(** * Breathsmith: the package-manager tools of [breathsmith.py]

    A shallow embedding of the five external-command tools of the
    Breathsmith MCP server ([uv_command], [npm_command], [npx_command],
    [yarn_command], [bun_command]) and the properties of their
    validation, executable resolution, probing, execution and report
    assembly.

    Python text is a list of Unicode code points.  The operating system
    (file system, current directory, child processes) is an interface
    [OS] over an abstract world; a tool is a computation in a state and
    exception monad over the world that also logs every child process
    it starts. *)

From Stdlib Require Import List ZArith NArith Bool Lia String Ascii DecimalString.
Import ListNotations.

Set Implicit Arguments.

(** ** Python [str] *)

Module Text.

(** A character is a Unicode code point. *)
Definition char := N.
Definition pystr := list char.

(** An ASCII literal of the source. *)
Definition lit (s : string) : pystr :=
  List.map N_of_ascii (list_ascii_of_string s).

Definition nl : pystr := [10%N].

(** [str.isspace] on one character, the table of CPython's
    [_PyUnicode_IsWhitespace]; it is what [str.strip()] and
    [str.split()] without argument use. *)
Definition isspace (c : char) : bool :=
  ((9 <=? c) && (c <=? 13) || (28 <=? c) && (c <=? 32)
   || (c =? 133) || (c =? 160) || (c =? 5760)
   || (8192 <=? c) && (c <=? 8202)
   || (c =? 8232) || (c =? 8233) || (c =? 8239) || (c =? 8287)
   || (c =? 12288))%N.

Definition notspace (c : char) : bool := negb (isspace c).

(** Python truthiness of a string: non-empty. *)
Definition truthy (s : pystr) : bool :=
  match s with [] => false | _ :: _ => true end.

Fixpoint lstrip (s : pystr) : pystr :=
  match s with
  | [] => []
  | c :: s' => if isspace c then lstrip s' else s
  end.

Definition rstrip (s : pystr) : pystr := rev (lstrip (rev s)).

(** [s.strip()] *)
Definition strip (s : pystr) : pystr := rstrip (lstrip s).

(** [s.split()]: skip whitespace, take the maximal run of other
    characters, repeat.  [w] is the word being read, reversed. *)
Fixpoint split_from (w : pystr) (s : pystr) : list pystr :=
  match s with
  | [] => match w with [] => [] | _ :: _ => [rev w] end
  | c :: s' =>
      if isspace c
      then match w with
           | [] => split_from [] s'
           | _ :: _ => rev w :: split_from [] s'
           end
      else split_from (c :: w) s'
  end.

Definition split (s : pystr) : list pystr := split_from [] s.

(** [sep.join(parts)] *)
Fixpoint join (sep : pystr) (parts : list pystr) : pystr :=
  match parts with
  | [] => []
  | [p] => p
  | p :: ps => p ++ sep ++ join sep ps
  end.

(** [str(n)] for an [int]. *)
Definition str_of_Z (z : Z) : pystr :=
  lit (NilZero.string_of_int (Z.to_int z)).

(** [str(b)] for a [bool]. *)
Definition str_of_bool (b : bool) : pystr :=
  if b then lit "True" else lit "False".

(** [needle in hay] *)
Fixpoint starts_with (p s : pystr) : bool :=
  match p, s with
  | [], _ => true
  | _ :: _, [] => false
  | a :: p', b :: s' => (a =? b)%N && starts_with p' s'
  end.

Fixpoint contains (hay needle : pystr) : bool :=
  starts_with needle hay ||
  match hay with
  | [] => false
  | _ :: hay' => contains hay' needle
  end.

End Text.
Import Text.

(** ** Exceptions, child processes and the operating system *)

(** The exceptions the tools distinguish: [subprocess.TimeoutExpired]
    (it carries the output captured before the child was killed),
    [FileNotFoundError], and any other subclass of [Exception] with its
    [str(e)]. *)
Inductive exn : Type :=
| TimeoutExpired (output stderr : pystr)
| FileNotFoundError (msg : pystr)
| OtherException (msg : pystr).

Inductive result (A : Type) : Type :=
| Ok (a : A)
| Raise (e : exn).
Arguments Ok {A} a.
Arguments Raise {A} e.

(** [subprocess.CompletedProcess] with [capture_output=True]. *)
Record CompletedProcess : Type := mkCompleted {
  returncode : Z;
  stdout : pystr;
  stderr : pystr
}.

(** The arguments of one [subprocess.run] call. *)
Record Spawn : Type := mkSpawn {
  sp_argv : list pystr;
  sp_cwd : option pystr;
  sp_text : bool;
  sp_timeout : Z
}.

(** Which call site of a tool started a child (not seen by the
    operating system). *)
Inductive role : Type := ResolveProbe | VersionQuery | MainCommand.

(** One child process started by a tool and how [subprocess.run]
    ended. *)
Record event : Type := mkEvent {
  ev_role : role;
  ev_spawn : Spawn;
  ev_outcome : result CompletedProcess
}.

(** What the tools ask of the operating system.  Only a child process
    changes the world. *)
Class OS (World : Type) : Type := {
  (** [os.getcwd()] *)
  getcwd : World -> result pystr;
  (** [os.path.exists(path)] *)
  path_exists : World -> pystr -> bool;
  (** [os.path.expanduser(path)] *)
  expanduser : World -> pystr -> pystr;
  (** [(Path(cwd) / name).exists()]; it re-raises an [OSError] that is
      not a plain absence. *)
  Path_exists : World -> pystr -> pystr -> result bool;
  (** [subprocess.run(argv, cwd=..., capture_output=True, text=...,
      timeout=...)] *)
  spawn : World -> Spawn -> result CompletedProcess * World
}.

(** ** The tools *)

Inductive tool : Type := Uv | Npm | Npx | Yarn | Bun.

Section Tools.

Context {World : Type} `{OS World}.

(** A computation reads and changes the world, appends to the log of
    children, and returns or raises; the world and the log survive an
    exception. *)
Definition M (A : Type) : Type :=
  World * list event -> result A * (World * list event).

Definition ret {A} (a : A) : M A := fun s => (Ok a, s).

Definition raise {A} (e : exn) : M A := fun s => (Raise e, s).

Definition bind {A B} (m : M A) (k : A -> M B) : M B :=
  fun s =>
    match m s with
    | (Ok a, s') => k a s'
    | (Raise e, s') => (Raise e, s')
    end.

(** [try: body except ...: handler] *)
Definition try_except {A} (body : M A) (handler : exn -> M A) : M A :=
  fun s =>
    match body s with
    | (Ok a, s') => (Ok a, s')
    | (Raise e, s') => handler e s'
    end.

Definition os_getcwd : M pystr := fun s => (getcwd (fst s), s).

Definition os_path_exists (p : pystr) : M bool :=
  fun s => (Ok (path_exists (fst s) p), s).

Definition os_path_expanduser (p : pystr) : M pystr :=
  fun s => (Ok (expanduser (fst s) p), s).

Definition exists_in (cwd name : pystr) : M bool :=
  fun s => (Path_exists (fst s) cwd name, s).

Definition subprocess_run (r : role) (sp : Spawn) : M CompletedProcess :=
  fun s =>
    let (o, w') := spawn (fst s) sp in
    (o, (w', snd s ++ [mkEvent r sp o])).

(** Running a tool from a world with an empty log. *)
Definition run {A} (m : M A) (w : World) : result A * (World * list event) :=
  m (w, []).

Definition outcome_of {A} (x : result A * (World * list event)) : result A :=
  fst x.

Definition world_of {A} (x : result A * (World * list event)) : World :=
  fst (snd x).

Definition trace_of {A} (x : result A * (World * list event)) : list event :=
  snd (snd x).

End Tools.

Declare Scope py_scope.
Delimit Scope py_scope with py.
Notation "x <- m ;; k" := (bind m (fun x => k))
  (at level 61, m at next level, right associativity) : py_scope.
Open Scope py_scope.

Section Commands.

Context {World : Type} `{OS World}.

(** *** Blocks the five tools share *)

Definition empty_command_error : pystr := lit "Error: Empty command provided".

Definition directory_error (directory : pystr) : pystr :=
  lit "Error: Directory '" ++ directory ++ lit "' does not exist".

Definition timeout_error (timeout : Z) : pystr :=
  lit "Error: Command timed out after " ++ str_of_Z timeout ++ lit " seconds".

(** [directory] when it is truthy: given and not the empty string. *)
Definition supplied (directory : option pystr) : option pystr :=
  match directory with
  | Some (c :: d) => Some (c :: d)
  | _ => None
  end.

(** [cwd = directory if directory else os.getcwd()]
    [if directory and not os.path.exists(directory): return "Error: ..."]
    and then the rest of the body, [k cwd]. *)
Definition in_directory (directory : option pystr) (k : pystr -> M pystr) : M pystr :=
  match supplied directory with
  | Some d =>
      found <- os_path_exists d ;;
      if found then k d else ret (directory_error d)
  | None =>
      cwd <- os_getcwd ;;
      k cwd
  end.

(** [subprocess.run(cmd_parts, cwd=cwd, capture_output=True, text=True,
    timeout=timeout)] *)
Definition main_spawn (cmd_parts : list pystr) (cwd : pystr) (timeout : Z) : Spawn :=
  mkSpawn cmd_parts (Some cwd) true timeout.

(** The part of a report for one captured stream:
    [if result.stdout: output_parts.append(f"\nSTDOUT:\n{result.stdout.strip()}")] *)
Definition stream_part (label captured : pystr) : list pystr :=
  if truthy captured
  then [nl ++ label ++ lit ":" ++ nl ++ strip captured]
  else [].

Definition stream_parts (result : CompletedProcess) : list pystr :=
  stream_part (lit "STDOUT") (stdout result)
  ++ stream_part (lit "STDERR") (stderr result).

(** [subprocess.run([exe, "--version"], capture_output=True, text=True,
    timeout=10)] *)
Definition version_spawn (exe : pystr) : Spawn :=
  mkSpawn [exe; lit "--version"] None true 10.

(** The version block of [yarn_command] and [bun_command]: the version
    starts as ["unknown"] and a bare [except: pass] swallows every
    failure of the query. *)
Definition version_query (exe : pystr) : M pystr :=
  try_except
    (version_result <- subprocess_run VersionQuery (version_spawn exe) ;;
     if (returncode version_result =? 0)%Z
     then ret (strip (stdout version_result))
     else ret (lit "unknown"))
    (fun _ => ret (lit "unknown")).

(** *** [uv_command] *)

Definition uv_command (command : pystr) (directory : option pystr) (timeout : Z)
  : M pystr :=
  try_except
    (if negb (truthy (strip command)) then ret empty_command_error
     else
       let cmd_parts := lit "uv" :: split command in
       in_directory directory (fun cwd =>
         result <- subprocess_run MainCommand (main_spawn cmd_parts cwd timeout) ;;
         let output_parts :=
           [ lit "Command: uv " ++ command;
             lit "Directory: " ++ cwd;
             lit "Exit code: " ++ str_of_Z (returncode result) ]
           ++ stream_parts result in
         ret (join nl output_parts)))
    (fun e =>
       match e with
       | TimeoutExpired _ _ => ret (timeout_error timeout)
       | FileNotFoundError _ =>
           ret (lit "Error: 'uv' command not found. Is UV installed?")
       | OtherException msg => ret (lit "Error running uv command: " ++ msg)
       end).

(** *** [npm_command] *)

(** [has_package_json = (Path(cwd) / "package.json").exists()] *)
Definition npm_probe (cwd : pystr) : M bool :=
  exists_in cwd (lit "package.json").

Definition npm_command (command : pystr) (directory : option pystr) (timeout : Z)
  : M pystr :=
  try_except
    (if negb (truthy (strip command)) then ret empty_command_error
     else
       let cmd_parts := lit "npm" :: split command in
       in_directory directory (fun cwd =>
         has_package_json <- npm_probe cwd ;;
         result <- subprocess_run MainCommand (main_spawn cmd_parts cwd timeout) ;;
         let output_parts :=
           [ lit "Command: npm " ++ command;
             lit "Directory: " ++ cwd;
             lit "Package.json present: " ++ str_of_bool has_package_json;
             lit "Exit code: " ++ str_of_Z (returncode result) ]
           ++ stream_parts result in
         ret (join nl output_parts)))
    (fun e =>
       match e with
       | TimeoutExpired _ _ => ret (timeout_error timeout)
       | FileNotFoundError _ =>
           ret (lit "Error: 'npm' command not found. Is Node.js/npm installed?")
       | OtherException msg => ret (lit "Error running npm command: " ++ msg)
       end).

(** *** [npx_command] *)

Definition npx_probe (cwd : pystr) : M (bool * bool) :=
  has_package_json <- exists_in cwd (lit "package.json") ;;
  has_node_modules <- exists_in cwd (lit "node_modules") ;;
  ret (has_package_json, has_node_modules).

Definition npx_command (command : pystr) (directory : option pystr) (timeout : Z)
  : M pystr :=
  try_except
    (if negb (truthy (strip command)) then ret empty_command_error
     else
       let cmd_parts := lit "npx" :: split command in
       in_directory directory (fun cwd =>
         probed <- npx_probe cwd ;;
         let '(has_package_json, has_node_modules) := probed in
         result <- subprocess_run MainCommand (main_spawn cmd_parts cwd timeout) ;;
         let output_parts :=
           [ lit "Command: npx " ++ command;
             lit "Directory: " ++ cwd;
             lit "Package.json present: " ++ str_of_bool has_package_json;
             lit "Node_modules present: " ++ str_of_bool has_node_modules;
             lit "Exit code: " ++ str_of_Z (returncode result) ]
           ++ stream_parts result in
         ret (join nl output_parts)))
    (fun e =>
       match e with
       | TimeoutExpired _ _ => ret (timeout_error timeout)
       | FileNotFoundError _ =>
           ret (lit "Error: 'npx' command not found. Is Node.js/npm installed?")
       | OtherException msg => ret (lit "Error running npx command: " ++ msg)
       end).

(** *** [yarn_command]

    [command] is a [str], so the [if command is None] line does
    nothing. *)

Definition yarn_probe (cwd : pystr) : M (bool * bool * bool * pystr) :=
  has_package_json <- exists_in cwd (lit "package.json") ;;
  has_yarn_lock <- exists_in cwd (lit "yarn.lock") ;;
  has_node_modules <- exists_in cwd (lit "node_modules") ;;
  yarn_version <- version_query (lit "yarn") ;;
  ret (has_package_json, has_yarn_lock, has_node_modules, yarn_version).

Definition yarn_command (command : pystr) (directory : option pystr) (timeout : Z)
  : M pystr :=
  try_except
    (let command := strip command in
     let cmd_parts :=
       if negb (truthy command) then [lit "yarn"]
       else lit "yarn" :: split command in
     in_directory directory (fun cwd =>
       probed <- yarn_probe cwd ;;
       let '(has_package_json, has_yarn_lock, has_node_modules, yarn_version) :=
         probed in
       result <- subprocess_run MainCommand (main_spawn cmd_parts cwd timeout) ;;
       let display_command :=
         if negb (truthy command) then lit "yarn"
         else lit "yarn " ++ command in
       let output_parts :=
         [ lit "Command: " ++ display_command;
           lit "Directory: " ++ cwd;
           lit "Yarn version: " ++ yarn_version;
           lit "Package.json present: " ++ str_of_bool has_package_json;
           lit "Yarn.lock present: " ++ str_of_bool has_yarn_lock;
           lit "Node_modules present: " ++ str_of_bool has_node_modules;
           lit "Exit code: " ++ str_of_Z (returncode result) ]
         ++ stream_parts result in
       ret (join nl output_parts)))
    (fun e =>
       match e with
       | TimeoutExpired _ _ => ret (timeout_error timeout)
       | FileNotFoundError _ =>
           ret (lit "Error: 'yarn' command not found. Is Yarn installed? Install with: npm install -g yarn")
       | OtherException msg => ret (lit "Error running yarn command: " ++ msg)
       end).

(** *** [bun_command] *)

(** [subprocess.run(["bun"], capture_output=True, timeout=5)] *)
Definition bun_probe : Spawn := mkSpawn [lit "bun"] None false 5.

(** [for bun_path in common_bun_paths: if os.path.exists(bun_path):
    bun_executable = bun_path; break] *)
Fixpoint first_existing (paths : list pystr) (bun_executable : pystr) : M pystr :=
  match paths with
  | [] => ret bun_executable
  | bun_path :: rest =>
      found <- os_path_exists bun_path ;;
      if found then ret bun_path else first_existing rest bun_executable
  end.

(** The resolution block: the bare name is probed, and only
    [FileNotFoundError] and [TimeoutExpired] lead to the well-known
    install locations; another exception leaves the block. *)
Definition resolve_bun : M pystr :=
  try_except
    (_ <- subprocess_run ResolveProbe bun_probe ;;
     ret (lit "bun"))
    (fun e =>
       match e with
       | FileNotFoundError _ | TimeoutExpired _ _ =>
           home_bun <- os_path_expanduser (lit "~/.bun/bin/bun") ;;
           let common_bun_paths :=
             [ home_bun; lit "/usr/local/bin/bun"; lit "/opt/homebrew/bin/bun" ] in
           first_existing common_bun_paths (lit "bun")
       | OtherException _ => raise e
       end).

(** The other-lock-files line; it starts with U+26A0 U+FE0F. *)
Definition warning_line : pystr :=
  [9888%N; 65039%N]
  ++ lit " Other lock files detected (yarn.lock/package-lock.json)".

(** [has_other_locks] is an [or]: [package-lock.json] is looked up only
    when [yarn.lock] is absent. *)
Definition bun_project (bun_executable cwd : pystr)
  : M (bool * bool * bool * bool * pystr) :=
  has_package_json <- exists_in cwd (lit "package.json") ;;
  has_bun_lockb <- exists_in cwd (lit "bun.lockb") ;;
  has_node_modules <- exists_in cwd (lit "node_modules") ;;
  has_yarn_lock <- exists_in cwd (lit "yarn.lock") ;;
  has_other_locks <-
    (if has_yarn_lock then ret true
     else exists_in cwd (lit "package-lock.json")) ;;
  bun_version <- version_query bun_executable ;;
  ret (has_package_json, has_bun_lockb, has_node_modules, has_other_locks,
       bun_version).

Definition bun_command (command : pystr) (directory : option pystr) (timeout : Z)
  : M pystr :=
  try_except
    (if negb (truthy (strip command)) then ret empty_command_error
     else
       bun_executable <- resolve_bun ;;
       let cmd_parts := bun_executable :: split command in
       in_directory directory (fun cwd =>
         probed <- bun_project bun_executable cwd ;;
         let '(has_package_json, has_bun_lockb, has_node_modules,
               has_other_locks, bun_version) := probed in
         result <- subprocess_run MainCommand (main_spawn cmd_parts cwd timeout) ;;
         let output_parts :=
           [ lit "Command: bun " ++ command;
             lit "Directory: " ++ cwd;
             lit "Bun version: " ++ bun_version;
             lit "Package.json present: " ++ str_of_bool has_package_json;
             lit "Bun.lockb present: " ++ str_of_bool has_bun_lockb;
             lit "Node_modules present: " ++ str_of_bool has_node_modules ]
           ++ (if has_other_locks then [ warning_line ] else [])
           ++ [ lit "Exit code: " ++ str_of_Z (returncode result) ]
           ++ stream_parts result in
         ret (join nl output_parts)))
    (fun e =>
       match e with
       | TimeoutExpired _ _ => ret (timeout_error timeout)
       | FileNotFoundError _ =>
           ret (lit "Error: 'bun' command not found. Is Bun installed? Install from: https://bun.sh")
       | OtherException msg => ret (lit "Error running bun command: " ++ msg)
       end).

Definition tool_command (t : tool) : pystr -> option pystr -> Z -> M pystr :=
  match t with
  | Uv => uv_command
  | Npm => npm_command
  | Npx => npx_command
  | Yarn => yarn_command
  | Bun => bun_command
  end.

End Commands.

(** ** The tools as one parameterized component

    What differs between the five bodies, and the Report Assembler of
    the specification, against which the bodies are compared. *)

Definition tool_name (t : tool) : pystr :=
  match t with
  | Uv => lit "uv"
  | Npm => lit "npm"
  | Npx => lit "npx"
  | Yarn => lit "yarn"
  | Bun => lit "bun"
  end.

Definition not_found_error (t : tool) : pystr :=
  match t with
  | Uv => lit "Error: 'uv' command not found. Is UV installed?"
  | Npm => lit "Error: 'npm' command not found. Is Node.js/npm installed?"
  | Npx => lit "Error: 'npx' command not found. Is Node.js/npm installed?"
  | Yarn => lit "Error: 'yarn' command not found. Is Yarn installed? Install with: npm install -g yarn"
  | Bun => lit "Error: 'bun' command not found. Is Bun installed? Install from: https://bun.sh"
  end.

(** The command as a report shows it; [yarn_command] shows it
    trimmed. *)
Definition command_line (t : tool) (command : pystr) : pystr :=
  match t with
  | Yarn =>
      if negb (truthy (strip command)) then lit "yarn"
      else lit "yarn " ++ strip command
  | _ => tool_name t ++ lit " " ++ command
  end.

Definition version_label (t : tool) : option pystr :=
  match t with
  | Yarn => Some (lit "Yarn version")
  | Bun => Some (lit "Bun version")
  | _ => None
  end.

Definition marker_labels (t : tool) : list pystr :=
  match t with
  | Uv => []
  | Npm => [lit "Package.json"]
  | Npx => [lit "Package.json"; lit "Node_modules"]
  | Yarn => [lit "Package.json"; lit "Yarn.lock"; lit "Node_modules"]
  | Bun => [lit "Package.json"; lit "Bun.lockb"; lit "Node_modules"]
  end.

(** What a version query yields: the trimmed output of a child that
    exited with 0, and ["unknown"] otherwise. *)
Definition version_of (o : result CompletedProcess) : pystr :=
  match o with
  | Ok version_result =>
      if (returncode version_result =? 0)%Z
      then strip (stdout version_result)
      else lit "unknown"
  | Raise _ => lit "unknown"
  end.

(** The Report Assembler of the specification (section 4.4), for a
    completed command: it includes the command, the directory, the
    version if any, the marker fields, the exit code and the labeled
    sections of the non-empty streams.  The order is the one of the
    source: version before markers, exit code before streams. *)
Definition assemble (command_line directory : pystr)
    (version : option (pystr * pystr)) (markers : list (pystr * bool))
    (other_locks : bool) (result : CompletedProcess) : pystr :=
  join nl
    ([ lit "Command: " ++ command_line;
       lit "Directory: " ++ directory ]
     ++ match version with
        | Some (label, v) => [ label ++ lit ": " ++ v ]
        | None => []
        end
     ++ List.map (fun m => fst m ++ lit " present: " ++ str_of_bool (snd m)) markers
     ++ (if other_locks then [ warning_line ] else [])
     ++ [ lit "Exit code: " ++ str_of_Z (returncode result) ]
     ++ stream_parts result).

(** The report of a tool whose main command was started, by the way
    [subprocess.run] ended. *)
Definition conclude (t : tool) (command : pystr) (timeout : Z) (cwd : pystr)
    (version : pystr) (presence : list bool) (other_locks : bool)
    (o : result CompletedProcess) : pystr :=
  match o with
  | Ok result =>
      assemble (command_line t command) cwd
        (option_map (fun label => (label, version)) (version_label t))
        (combine (marker_labels t) presence) other_locks result
  | Raise (TimeoutExpired _ _) => timeout_error timeout
  | Raise (FileNotFoundError _) => not_found_error t
  | Raise (OtherException msg) =>
      lit "Error running " ++ tool_name t ++ lit " command: " ++ msg
  end.

(** How a captured stream appears in a report: not at all when it is
    empty, else a blank line, the label and the trimmed text. *)
Definition shown (label captured : pystr) : pystr :=
  if truthy captured
  then nl ++ nl ++ label ++ lit ":" ++ nl ++ strip captured
  else [].

(** A version query failed: [subprocess.run] raised, or the child
    exited with a code other than 0. *)
Definition query_failed (o : result CompletedProcess) : Prop :=
  match o with
  | Ok version_result => returncode version_result <> 0%Z
  | Raise _ => True
  end.

Section Outline.

Context {World : Type} `{OS World}.

(** The well-known install locations of [bun], in the order of the
    source. *)
Definition common_bun_paths (w : World) : list pystr :=
  [ expanduser w (lit "~/.bun/bin/bun");
    lit "/usr/local/bin/bun";
    lit "/opt/homebrew/bin/bun" ].

(** The executable [bun_command] settles on, from the way the probe of
    the bare name ended and the world [w'] the probe left. *)
Definition resolved (w' : World) (o : result CompletedProcess) : result pystr :=
  match o with
  | Ok _ => Ok (lit "bun")
  | Raise (OtherException msg) => Raise (OtherException msg)
  | Raise _ =>
      Ok match find (path_exists w') (common_bun_paths w') with
         | Some bun_path => bun_path
         | None => lit "bun"
         end
  end.

Definition resolved_executable (t : tool) (w : World) : result pystr :=
  match t with
  | Bun => let (o, w') := spawn w bun_probe in resolved w' o
  | _ => Ok (tool_name t)
  end.

(** The children a tool starts before it looks at the directory. *)
Definition resolve_events (t : tool) (command : pystr) (w : World) : list event :=
  match t with
  | Bun =>
      if truthy (strip command)
      then [ mkEvent ResolveProbe bun_probe (fst (spawn w bun_probe)) ]
      else []
  | _ => []
  end.

Definition version_events (t : tool) (exe : pystr) (o : result CompletedProcess)
  : list event :=
  match version_label t with
  | Some _ => [ mkEvent VersionQuery (version_spawn exe) o ]
  | None => []
  end.

(** The two ways a run of a tool can go: it stops before the version
    query and the main command, or it starts the main command, last,
    and reports how that ended. *)
Inductive outline (t : tool) (command : pystr) (directory : option pystr)
    (timeout : Z) (w : World) : result pystr -> list event -> Prop :=
| Stopped (report : pystr) :
    outline t command directory timeout w
      (Ok report) (resolve_events t command w)
| Executed (exe cwd : pystr) (o_version : result CompletedProcess)
    (presence : list bool) (other_locks : bool)
    (o_main : result CompletedProcess) :
    resolved_executable t w = Ok exe ->
    (forall d, supplied directory = Some d -> cwd = d) ->
    List.length presence = List.length (marker_labels t) ->
    (other_locks = true -> t = Bun) ->
    outline t command directory timeout w
      (Ok (conclude t command timeout cwd (version_of o_version)
             presence other_locks o_main))
      (resolve_events t command w
       ++ version_events t exe o_version
       ++ [ mkEvent MainCommand
              (main_spawn (exe :: split command) cwd timeout) o_main ]).

(** The world in which a tool looks up the supplied directory:
    [bun_command] has run its probe by then. *)
Definition world_at_directory_check (t : tool) (w : World) : World :=
  match t with
  | Bun => snd (spawn w bun_probe)
  | _ => w
  end.

End Outline.

(** ** A scripted world

    A concrete operating system for running the tools on examples: a
    fixed file system, and the outcomes of the children that will be
    started, in order. *)

Module Scripted.

Record world : Type := mkWorld {
  cwd : result pystr;
  home : pystr;
  paths : list pystr;
  files : list (pystr * pystr);
  script : list (result CompletedProcess)
}.

Fixpoint eqb_str (a b : pystr) : bool :=
  match a, b with
  | [], [] => true
  | x :: a', y :: b' => (x =? y)%N && eqb_str a' b'
  | _, _ => false
  end.

(** A leading [~] becomes the home directory. *)
Definition expand (w : world) (p : pystr) : pystr :=
  match p with
  | 126%N :: rest => home w ++ rest
  | _ => p
  end.

(** The next outcome of the script; with the script used up no
    executable is found. *)
Definition next (w : world) (sp : Spawn) : result CompletedProcess * world :=
  match script w with
  | [] => (Raise (FileNotFoundError []), w)
  | o :: rest => (o, mkWorld (cwd w) (home w) (paths w) (files w) rest)
  end.

#[export] Instance scripted_os : OS world := {
  getcwd w := cwd w;
  path_exists w p := existsb (eqb_str p) (paths w);
  expanduser := expand;
  Path_exists w d name :=
    Ok (existsb (fun f => eqb_str d (fst f) && eqb_str name (snd f)) (files w));
  spawn := next
}.

(** A project directory [/proj] holding only [package.json]. *)
Definition project (outcomes : list (result CompletedProcess)) : world :=
  mkWorld (Ok (lit "/proj")) (lit "/home/dev") [lit "/proj"]
          [(lit "/proj", lit "package.json")] outcomes.

Definition exited (code : Z) (out err : string) : result CompletedProcess :=
  Ok (mkCompleted code (lit out) (lit err)).

(** An [npm install] that is killed at the timeout after it has
    written to both streams. *)
Definition npm_out : pystr := lit "added 3 packages".
Definition npm_err : pystr := lit "npm WARN deprecated".
Definition npm_times_out : world :=
  project [ Raise (TimeoutExpired npm_out npm_err) ].

(** [yarn --version] answers, then the main command completes. *)
Definition yarn_installed : world :=
  project [ Ok (mkCompleted 0 (lit "1.22.19" ++ nl) []);
            exited 0 "Done in 0.05s." "" ].


(** [yarn --version] hangs, the main command completes. *)
Definition yarn_version_hangs : world :=
  project [ Raise (TimeoutExpired [] []); exited 0 "Done in 0.05s." "" ].


(** The bare [bun] is on the search path and prints its help. *)
Definition bun_on_path : world :=
  project [ exited 0 "Bun is a fast JavaScript runtime" "" ].

(** [bun] is nowhere. *)
Definition bun_absent : world := project [].

(** A child that prints an indented line. *)
Definition indented : pystr := lit "  indented" ++ nl.
Definition uv_prints : world :=
  project [ Ok (mkCompleted 0 indented []) ].

End Scripted.

(** ** The state a tool finds before its main command *)

Section Lookups.

Context {World : Type} `{OS World}.

(** The directory a tool works in: the supplied one, which has to
    exist, or else [os.getcwd()]. *)
Definition working_directory (directory : option pystr) (w : World)
    (cwd : pystr) : Prop :=
  match supplied directory with
  | Some d => path_exists w d = true /\ cwd = d
  | None => getcwd w = Ok cwd
  end.

(** The marker files a tool looks up under the working directory, in
    the order of its report fields. *)
Definition marker_files (t : tool) : list pystr :=
  match t with
  | Uv => []
  | Npm => [lit "package.json"]
  | Npx => [lit "package.json"; lit "node_modules"]
  | Yarn => [lit "package.json"; lit "yarn.lock"; lit "node_modules"]
  | Bun => [lit "package.json"; lit "bun.lockb"; lit "node_modules"]
  end.

(** [has_other_locks] of [bun_command]:
    [yarn_lock_path.exists() or package_lock_path.exists()]. *)
Definition other_locks_at (t : tool) (w : World) (cwd : pystr) : result bool :=
  match t with
  | Bun =>
      match Path_exists w cwd (lit "yarn.lock") with
      | Ok true => Ok true
      | Ok false => Path_exists w cwd (lit "package-lock.json")
      | Raise e => Raise e
      end
  | _ => Ok false
  end.

(** The world in which the main command starts: the version query of
    [yarn_command] and [bun_command] has run by then. *)
Definition world_before_main (t : tool) (exe : pystr) (w : World) : World :=
  match version_label t with
  | Some _ => snd (spawn w (version_spawn exe))
  | None => w
  end.

End Lookups.

(** ** [read_claude_logs]

    The tool tails the log files of Claude Desktop.  A path is modelled
    by its [str()].  The file system answers or fails with the text of
    its exception. *)

Inductive fs_result (A : Type) : Type :=
| Found (a : A)
| Failed (msg : pystr).
Arguments Found {A} a.
Arguments Failed {A} msg.

Class LogFiles (World : Type) : Type := {
  (** [Path.home()] *)
  Path_home : World -> fs_result pystr;
  (** [path.exists()] *)
  log_exists : World -> pystr -> fs_result bool;
  (** [list(directory.glob(pattern))], by the names of the files found *)
  log_glob : World -> pystr -> pystr -> fs_result (list pystr)
}.

(** [a == b] on strings. *)
Fixpoint same_text (a b : pystr) : bool :=
  match a, b with
  | [], [] => true
  | x :: a', y :: b' => (x =? y)%N && same_text a' b'
  | _, _ => false
  end.

(** [path / name] for a name without a slash: only a root ends with a
    slash. *)
Definition joinpath (path name : pystr) : pystr :=
  match rev path with
  | 47%N :: _ => path ++ name
  | _ => path ++ lit "/" ++ name
  end.

(** [Path.home() / "Library" / "Logs" / "Claude"] *)
Definition claude_log_dir (home : pystr) : pystr :=
  joinpath (joinpath (joinpath home (lit "Library")) (lit "Logs")) (lit "Claude").

(** [subprocess.run(["tail", "-n", str(lines), str(log_file)],
    capture_output=True, text=True, timeout=10)] *)
Definition tail_spawn (lines : Z) (log_file : pystr) : Spawn :=
  mkSpawn [lit "tail"; lit "-n"; str_of_Z lines; log_file] None true 10.


Section ClaudeLogs.

Context {World : Type} `{OS World} `{LogFiles World}.

(** [str(e)] of a [TimeoutExpired], from the output it carries.  Python
    builds the text from the command and the timeout, which the
    exception of the model does not carry, so it is left open. *)
Variable timeout_text : pystr -> pystr -> pystr.

(** A file-system call inside the outer [try]: a failure is an
    exception with its text. *)
Definition from_fs {A} (f : World -> fs_result A) : M A :=
  fun s =>
    match f (fst s) with
    | Found a => (Ok a, s)
    | Failed msg => (Raise (OtherException msg), s)
    end.

(** The body of the loop for one log file. *)
Definition read_log (lines : Z) (log_dir name : pystr) (result : list pystr)
  : M (list pystr) :=
  found <- from_fs (fun w => log_exists w (joinpath log_dir name)) ;;
  if found then
    try_except
      (tail_result <-
         subprocess_run MainCommand (tail_spawn lines (joinpath log_dir name)) ;;
       if truthy (stdout tail_result)
       then ret (result ++ [ lit "=== " ++ name ++ lit " ===";
                             strip (stdout tail_result) ])
       else ret (result
                 ++ [ lit "=== " ++ name ++ lit " === (empty or no recent entries)" ]))
      (fun e =>
         match e with
         | TimeoutExpired _ _ =>
             ret (result ++ [ lit "=== " ++ name ++ lit " === (timeout reading file)" ])
         | FileNotFoundError msg | OtherException msg =>
             ret (result
                  ++ [ lit "=== " ++ name ++ lit " === (error: " ++ msg ++ lit ")" ])
         end)
  else ret result.

(** [for log_file in log_files: ...] *)
Fixpoint read_logs (lines : Z) (log_dir : pystr) (log_files : list pystr)
    (result : list pystr) : M (list pystr) :=
  match log_files with
  | [] => ret result
  | name :: rest =>
      result' <- read_log lines log_dir name result ;;
      read_logs lines log_dir rest result'
  end.

(** The part of [read_claude_logs] after [log_files] is known. *)
Definition tail_logs (log_type : pystr) (lines : Z) (log_dir : pystr)
    (log_files : list pystr) : M pystr :=
  match log_files with
  | [] => ret (lit "No log files found for type: " ++ log_type)
  | _ :: _ =>
      result <- read_logs lines log_dir log_files [] ;;
      match result with
      | [] => ret (lit "No log entries found")
      | _ :: _ => ret (join (nl ++ nl) result)
      end
  end.

Definition read_claude_logs (log_type : pystr) (lines : Z) : M pystr :=
  try_except
    (home <- from_fs Path_home ;;
     let log_dir := claude_log_dir home in
     found <- from_fs (fun w => log_exists w log_dir) ;;
     if negb found
     then ret (lit "Claude log directory not found. Are you on macOS?")
     else if same_text log_type (lit "breathsmith") then
       log_files <-
         from_fs (fun w => log_glob w log_dir (lit "mcp-server-breathsmith.log")) ;;
       tail_logs log_type lines log_dir log_files
     else if same_text log_type (lit "mcp") then
       tail_logs log_type lines log_dir [lit "mcp.log"]
     else if same_text log_type (lit "all") then
       log_files <- from_fs (fun w => log_glob w log_dir (lit "mcp*.log")) ;;
       tail_logs log_type lines log_dir log_files
     else
       ret (lit "Unknown log type: " ++ log_type
            ++ lit ". Use 'mcp', 'breathsmith', or 'all'"))
    (fun e =>
       match e with
       | TimeoutExpired output stderr =>
           ret (lit "Error reading logs: " ++ timeout_text output stderr)
       | FileNotFoundError msg | OtherException msg =>
           ret (lit "Error reading logs: " ++ msg)
       end).

(** The log files a log type stands for, when it is a known one. *)
Definition log_files_of (w : World) (log_dir log_type : pystr)
  : option (fs_result (list pystr)) :=
  if same_text log_type (lit "breathsmith")
  then Some (log_glob w log_dir (lit "mcp-server-breathsmith.log"))
  else if same_text log_type (lit "mcp") then Some (Found [lit "mcp.log"])
  else if same_text log_type (lit "all")
  then Some (log_glob w log_dir (lit "mcp*.log"))
  else None.

End ClaudeLogs.

(** ** The text of an OpenAI response

    [openai_chat], [openai_web_search] and [openai_with_tools] take the
    answer out of [response.output] with the same loops. *)

Module Responses.

(** A content item; [text] is [None] when it has no attribute
    [text]. *)
Record content_item : Type := mkContent {
  text : option pystr
}.

(** An output item; [content] is [None] when it has no attribute
    [content]. *)
Record output_item : Type := mkItem {
  content : option (list content_item)
}.

(** [for content_item in item.content: if hasattr(content_item, 'text'):
    return content_item.text] *)
Fixpoint first_text (items : list content_item) : option pystr :=
  match items with
  | [] => None
  | content_item :: rest =>
      match text content_item with
      | Some t => Some t
      | None => first_text rest
      end
  end.

(** [if hasattr(item, 'content') and item.content: ...]; an empty
    content is falsy. *)
Definition item_text (item : output_item) : option pystr :=
  match content item with
  | Some (c :: cs) => first_text (c :: cs)
  | _ => None
  end.

(** The loop over the items in the order given. *)
Fixpoint first_item_text (items : list output_item) : option pystr :=
  match items with
  | [] => None
  | item :: rest =>
      match item_text item with
      | Some t => Some t
      | None => first_item_text rest
      end
  end.

(** [for item in reversed(response.output): ...]; [None] when the
    loops return nothing. *)
Definition response_text (output : list output_item) : option pystr :=
  first_item_text (rev output).

(** An item none of whose content items has a text. *)
Definition textless (item : output_item) : Prop :=
  forall items content_item,
    content item = Some items -> In content_item items ->
    text content_item = None.

End Responses.

(** ** The rows of [sqlite_execute]

    A row of [sqlite3.Row] is read by column name: [row[col]] is the
    value of the first column whose name equals [col], exactly or, for
    ASCII names, ignoring case. *)

Module Rows.

(** A value of a row: [None], or a value given by its [str()]. *)
Inductive sql_value : Type :=
| SqlNull
| SqlValue (shown : pystr).

Definition ascii_lower (c : char) : char :=
  if ((65 <=? c) && (c <=? 90))%N then (c + 32)%N else c.

Definition is_ascii (s : pystr) : bool := forallb (fun c => (c <? 128)%N) s.

(** The comparison of [sqlite3.Row] for a name. *)
Definition equal_ignore_case (a b : pystr) : bool :=
  same_text a b
  || (is_ascii a && is_ascii b
      && same_text (List.map ascii_lower a) (List.map ascii_lower b)).

(** [row[col]]; [None] is the [IndexError] of a name that no column
    has. *)
Fixpoint row_item (columns : list pystr) (row : list sql_value) (col : pystr)
  : option sql_value :=
  match columns, row with
  | name :: columns', value :: row' =>
      if equal_ignore_case col name then Some value
      else row_item columns' row' col
  | _, _ => None
  end.

(** [str(row[col]) if row[col] is not None else 'NULL'] *)
Definition cell (value : sql_value) : pystr :=
  match value with
  | SqlNull => lit "NULL"
  | SqlValue shown => shown
  end.

(** [row_data = [... for col in columns]], the cells of one row;
    [None] when a lookup raises. *)
Fixpoint cells (columns : list pystr) (row : list sql_value) (cols : list pystr)
  : option (list pystr) :=
  match cols with
  | [] => Some []
  | col :: rest =>
      match row_item columns row col, cells columns row rest with
      | Some value, Some more => Some (cell value :: more)
      | _, _ => None
      end
  end.

Definition row_data (columns : list pystr) (row : list sql_value)
  : option (list pystr) :=
  cells columns row columns.

(** No column name equals an earlier one for [sqlite3.Row]. *)
Fixpoint distinct_names (columns : list pystr) : bool :=
  match columns with
  | [] => true
  | name :: rest =>
      forallb (fun later => negb (equal_ignore_case later name)) rest
      && distinct_names rest
  end.

End Rows.

(** ** More concrete worlds *)

Module Worlds.

Import Scripted.

(** [npm install] completes in the project directory. *)
Definition npm_installs : world :=
  project [ exited 0 "added 3 packages" "" ].

(** [npm] is not installed. *)
Definition npm_absent : world :=
  project [ Raise (FileNotFoundError (lit "[Errno 2] No such file or directory: 'npm'")) ].

(** The current directory has been removed. *)
Definition cwd_gone : world :=
  mkWorld (Raise (FileNotFoundError (lit "[Errno 2] No such file or directory")))
          (lit "/home/dev") [] [] [ exited 0 "" "" ].

(** The probe of the bare [bun] exits with code 1; [bun install] then
    completes. *)
Definition bun_probe_exits_1 : world :=
  project [ exited 1 "" "error"; exited 0 "1.1.0" ""; exited 0 "done" "" ].

(** The probe of the bare [bun] is refused. *)
Definition bun_denied : world :=
  project [ Raise (OtherException (lit "[Errno 13] Permission denied: 'bun'")) ].

(** A world whose marker lookups are refused: the working directory
    [/locked] exists, every [Path.exists()] under it raises. *)
Record locked : Type := mkLocked {
  locked_script : list (result CompletedProcess)
}.

Definition denied : pystr := lit "[Errno 13] Permission denied".

#[export] Instance locked_os : OS locked := {
  getcwd _ := Ok (lit "/locked");
  path_exists _ _ := true;
  expanduser _ p := p;
  Path_exists _ _ _ := Raise (OtherException denied);
  spawn w _ :=
    match locked_script w with
    | [] => (Raise (FileNotFoundError []), w)
    | o :: rest => (o, mkLocked rest)
    end
}.

(** A Mac with the log directory of Claude Desktop and two log files;
    the outcomes of the [tail] children are scripted. *)
Record mac : Type := mkMac {
  mac_script : list (result CompletedProcess)
}.

#[export] Instance mac_os : OS mac := {
  getcwd _ := Ok (lit "/Users/dev");
  path_exists _ _ := true;
  expanduser _ p := p;
  Path_exists _ _ _ := Ok true;
  spawn w _ :=
    match mac_script w with
    | [] => (Raise (FileNotFoundError []), w)
    | o :: rest => (o, mkMac rest)
    end
}.

Definition mac_logs : list pystr :=
  [ lit "mcp-server-breathsmith.log"; lit "mcp.log" ].

#[export] Instance mac_files : LogFiles mac := {
  Path_home _ := Found (lit "/Users/dev");
  log_exists _ _ := Found true;
  log_glob _ _ pattern :=
    Found (if same_text pattern (lit "mcp*.log") then mac_logs
           else [ lit "mcp-server-breathsmith.log" ])
}.

(** The first [tail] hangs, the second prints two lines. *)
Definition mac_first_tail_hangs : mac :=
  mkMac [ Raise (TimeoutExpired [] []);
          Ok (mkCompleted 0 (lit "started" ++ nl ++ lit "ready" ++ nl) []) ].

(** No [TimeoutExpired] reaches the outer handler of
    [read_claude_logs]; any text will do for it. *)
Definition no_timeout_text (output stderr : pystr) : pystr := [].

End Worlds.

(** * Properties *)

(** ** Text: [strip] and [split] *)

Section TextFacts.

Lemma lstrip_decompose (s : pystr) :
  exists ws, s = ws ++ lstrip s /\ forallb isspace ws = true.
Proof.
  induction s as [|c s IH]; simpl.
  - exists []; split; reflexivity.
  - destruct (isspace c) eqn:Ec.
    + destruct IH as (ws & Hs & Hws).
      exists (c :: ws); simpl; rewrite Ec, Hws; split; [now f_equal | reflexivity].
    + exists []; split; reflexivity.
Qed.

Lemma rstrip_decompose (s : pystr) :
  exists ws, s = rstrip s ++ ws /\ forallb isspace ws = true.
Proof.
  unfold rstrip.
  destruct (lstrip_decompose (rev s)) as (ws & Hs & Hws).
  exists (rev ws); split.
  - rewrite <- rev_app_distr, <- Hs; symmetry; apply rev_involutive.
  - rewrite forallb_forall in *; intros x Hx; apply Hws; now apply in_rev.
Qed.

(** [strip] removes a run of whitespace at each end and nothing else. *)
Lemma strip_decompose (s : pystr) :
  exists l r,
    s = l ++ strip s ++ r
    /\ forallb isspace l = true /\ forallb isspace r = true.
Proof.
  destruct (lstrip_decompose s) as (l & Hl & Hwl).
  destruct (rstrip_decompose (lstrip s)) as (r & Hr & Hwr).
  exists l, r; unfold strip; rewrite <- Hr; auto.
Qed.

Lemma split_from_spaces (ws s : pystr) :
  forallb isspace ws = true -> split_from [] (ws ++ s) = split_from [] s.
Proof.
  induction ws as [|c ws IH]; simpl; intros Hws; [reflexivity|].
  apply andb_prop in Hws as [Hc Hws]; rewrite Hc; auto.
Qed.

Lemma split_from_app (w a ws b : pystr) :
  ws <> [] -> forallb isspace ws = true ->
  split_from w (a ++ ws ++ b) = split_from w a ++ split b.
Proof.
  intros Hne Hws; revert w.
  induction a as [|c a IH]; intros w; simpl.
  - destruct ws as [|c ws]; [congruence|].
    simpl in *; apply andb_prop in Hws as [Hc Hws]; rewrite Hc.
    rewrite (split_from_spaces _ _ Hws).
    destruct w; reflexivity.
  - destruct (isspace c); [destruct w; simpl; now rewrite IH | apply IH].
Qed.

(** A run of whitespace, however long, is one separator. *)
Lemma split_app (a ws b : pystr) :
  ws <> [] -> forallb isspace ws = true ->
  split (a ++ ws ++ b) = split a ++ split b.
Proof. apply split_from_app. Qed.

Lemma split_trailing_spaces (a ws : pystr) :
  forallb isspace ws = true -> split (a ++ ws) = split a.
Proof.
  intros Hws; destruct ws as [|c ws]; [now rewrite app_nil_r|].
  rewrite <- (app_nil_r (c :: ws)), split_app by (congruence || assumption).
  apply app_nil_r.
Qed.

Lemma split_strip (s : pystr) : split (strip s) = split s.
Proof.
  destruct (strip_decompose s) as (l & r & Hs & Hl & Hr).
  rewrite Hs at 2.
  unfold split at 2; rewrite split_from_spaces by assumption.
  symmetry; now apply split_trailing_spaces.
Qed.

Lemma split_blank (s : pystr) : truthy (strip s) = false -> split s = [].
Proof.
  intros Hb; rewrite <- split_strip.
  destruct (strip s); [reflexivity | discriminate].
Qed.

Lemma split_from_words (w s : pystr) :
  forallb notspace w = true ->
  Forall (fun a => a <> [] /\ forallb notspace a = true) (split_from w s).
Proof.
  revert w; induction s as [|c s IH]; intros w Hw; simpl.
  - destruct w as [|x w]; constructor; [|constructor].
    split.
    + intros E; apply (f_equal (@rev char)) in E.
      rewrite rev_involutive in E; discriminate.
    + rewrite forallb_forall in *; intros y Hy; apply Hw; now apply in_rev.
  - destruct (isspace c) eqn:Ec.
    + destruct w as [|x w]; [now apply IH|].
      constructor; [|now apply IH].
      split.
      * intros E; apply (f_equal (@rev char)) in E.
        rewrite rev_involutive in E; discriminate.
      * rewrite forallb_forall in *; intros y Hy; apply Hw; now apply in_rev.
    + apply IH; simpl; unfold notspace at 1; now rewrite Ec.
Qed.

(** No word of [split] is empty or holds a whitespace character. *)
Lemma split_words (s : pystr) :
  Forall (fun a => a <> [] /\ forallb notspace a = true) (split s).
Proof. now apply split_from_words. Qed.

Lemma concat_split_from (w s : pystr) :
  List.concat (split_from w s) = rev w ++ filter notspace s.
Proof.
  revert w; induction s as [|c s IH]; intros w; simpl.
  - destruct w; simpl; now rewrite ?app_nil_r.
  - unfold notspace at 1; destruct (isspace c); simpl.
    + destruct w; simpl; now rewrite IH.
    + rewrite IH; simpl; now rewrite <- app_assoc.
Qed.

(** The words are the text with its whitespace left out: every other
    character, a quote as well, stays where it is. *)
Lemma concat_split (s : pystr) : List.concat (split s) = filter notspace s.
Proof. apply concat_split_from. Qed.

End TextFacts.

Example split_example :
  split (lit "  add   --dev jest ") = [lit "add"; lit "--dev"; lit "jest"].
Proof. reflexivity. Qed.

Example split_quotes_example :
  split (lit "run python -c 'print(1, 2)'")
  = [lit "run"; lit "python"; lit "-c"; lit "'print(1,"; lit "2)'"].
Proof. reflexivity. Qed.

Example strip_example : strip (lit "  hi there" ++ nl) = lit "hi there".
Proof. reflexivity. Qed.

Example str_of_Z_examples :
  str_of_Z 60 = lit "60" /\ str_of_Z 0 = lit "0" /\ str_of_Z (-9) = lit "-9".
Proof. repeat split; reflexivity. Qed.

(** ** The blocks of the tools *)

Section ToolFacts.

Context {World : Type} `{OS World}.

Ltac unfold_monad :=
  unfold try_except, bind, ret, raise, subprocess_run, os_getcwd,
    os_path_exists, exists_in, os_path_expanduser in *;
  cbn [fst snd] in *.

(** The version query never raises and starts exactly one child. *)
Lemma version_query_run (exe : pystr) (s : World * list event) :
  version_query exe s
  = (Ok (version_of (fst (spawn (fst s) (version_spawn exe)))),
     (snd (spawn (fst s) (version_spawn exe)),
      snd s ++ [ mkEvent VersionQuery (version_spawn exe)
                   (fst (spawn (fst s) (version_spawn exe))) ])).
Proof.
  unfold version_query; unfold_monad.
  destruct (spawn (fst s) (version_spawn exe)) as [[cp|e] w']; cbn [fst snd].
  - unfold version_of; destruct (returncode cp =? 0)%Z; reflexivity.
  - reflexivity.
Qed.

Lemma first_existing_run (paths : list pystr) (default : pystr)
    (s : World * list event) :
  first_existing paths default s
  = (Ok match find (path_exists (fst s)) paths with
        | Some bun_path => bun_path
        | None => default
        end, s).
Proof.
  induction paths as [|p paths IH]; [reflexivity|].
  cbn [first_existing find]; unfold_monad.
  destruct (path_exists (fst s) p); [reflexivity | apply IH].
Qed.

(** The resolution block starts the probe and nothing else. *)
Lemma resolve_bun_run (s : World * list event) :
  resolve_bun s
  = (resolved (snd (spawn (fst s) bun_probe)) (fst (spawn (fst s) bun_probe)),
     (snd (spawn (fst s) bun_probe),
      snd s ++ [ mkEvent ResolveProbe bun_probe (fst (spawn (fst s) bun_probe)) ])).
Proof.
  unfold resolve_bun; unfold_monad.
  destruct (spawn (fst s) bun_probe) as [[cp|[out err|msg|msg]] w']; cbn [fst snd];
    try reflexivity.
  all: rewrite first_existing_run; reflexivity.
Qed.


(** ** Every run follows the outline *)

Lemma stopped_intro t command directory timeout (w : World) report trace :
  trace = resolve_events t command w ->
  outline t command directory timeout w (Ok report) trace.
Proof. intros ->; constructor. Qed.

Lemma executed_intro t command directory timeout (w : World)
    exe cwd o_version presence other_locks o_main r trace :
  resolved_executable t w = Ok exe ->
  (forall d, supplied directory = Some d -> cwd = d) ->
  List.length presence = List.length (marker_labels t) ->
  (other_locks = true -> t = Bun) ->
  trace = resolve_events t command w ++ version_events t exe o_version
          ++ [ mkEvent MainCommand (main_spawn (exe :: split command) cwd timeout) o_main ] ->
  r = Ok (conclude t command timeout cwd (version_of o_version) presence other_locks o_main) ->
  outline t command directory timeout w r trace.
Proof. intros; subst; now constructor. Qed.

Ltac step :=
  first
    [ rewrite version_query_run
    | rewrite resolve_bun_run
    | match goal with
      | |- context [match ?x with _ => _ end] =>
          lazymatch x with
          | context [match _ with _ => _ end] => fail
          | _ => destruct x eqn:?
          end
      end ];
  cbn [fst snd] in *.


Ltac stopped :=
  apply stopped_intro; cbn [resolve_events];
  repeat match goal with
         | E : truthy (strip _) = _ |- _ => rewrite E
         end;
  reflexivity.

Ltac executed pres other :=
  let ov :=
    lazymatch goal with
    | |- outline _ _ _ _ _ _ ?tr =>
        lazymatch tr with
        | context [mkEvent VersionQuery _ ?o] => o
        | _ => constr:(@Raise CompletedProcess (FileNotFoundError []))
        end
    end in
  eapply executed_intro
    with (presence := pres) (other_locks := other) (o_version := ov);
  cycle 4;
  [ cbn [resolve_events version_events version_label app];
    repeat match goal with
           | E : truthy (strip _) = _ |- _ => rewrite E
           end;
    cbn [app]; reflexivity
  | first [ reflexivity
          | unfold conclude, command_line;
            match goal with
            | E : negb (truthy _) = _ |- _ => rewrite E
            end;
            reflexivity ]
  | first [ reflexivity
          | unfold resolved_executable;
            match goal with
            | E : resolved _ _ = Ok _ |- _ =>
                destruct (spawn _ bun_probe); exact E
            end ]
  | intros ? ?; congruence
  | reflexivity
  | first [ reflexivity | discriminate ] ].

Ltac finish :=
  lazymatch goal with
  | |- outline _ _ _ _ _ _ ?tr =>
      lazymatch tr with
      | context [mkEvent MainCommand _ (Ok _)] =>
          lazymatch goal with
          | |- outline Uv _ _ _ _ _ _ => executed (@nil bool) false
          | |- outline Npm _ _ _ _
                 (Ok (join nl ([_; _; _ ++ str_of_bool ?b1; _] ++ _))) _ =>
              executed [b1] false
          | |- outline Npx _ _ _ _
                 (Ok (join nl ([_; _; _ ++ str_of_bool ?b1;
                                _ ++ str_of_bool ?b2; _] ++ _))) _ =>
              executed [b1; b2] false
          | |- outline Yarn _ _ _ _
                 (Ok (join nl ([_; _; _; _ ++ str_of_bool ?b1;
                                _ ++ str_of_bool ?b2;
                                _ ++ str_of_bool ?b3; _] ++ _))) _ =>
              executed [b1; b2; b3] false
          | |- outline Bun _ _ _ _
                 (Ok (join nl ([_; _; _; _ ++ str_of_bool ?b1;
                                _ ++ str_of_bool ?b2;
                                _ ++ str_of_bool ?b3] ++ [_] ++ _ ++ _))) _ =>
              executed [b1; b2; b3] true
          | |- outline Bun _ _ _ _
                 (Ok (join nl ([_; _; _; _ ++ str_of_bool ?b1;
                                _ ++ str_of_bool ?b2;
                                _ ++ str_of_bool ?b3] ++ [] ++ _ ++ _))) _ =>
              executed [b1; b2; b3] false
          end
      | context [mkEvent MainCommand _ _] =>
          lazymatch goal with
          | |- outline ?t _ _ _ _ _ _ =>
              let pres := eval cbv in (List.map (fun _ => false) (marker_labels t)) in
              executed pres false
          end
      | _ => stopped
      end
  end.

Lemma uv_outline command directory timeout w :
  let x := run (uv_command command directory timeout) w in
  outline Uv command directory timeout w (outcome_of x) (trace_of x).
Proof.
  unfold run, outcome_of, trace_of, uv_command, in_directory; unfold_monad.
  destruct (truthy (strip command)) eqn:Hc; cbn [negb]; [|stopped].
  repeat step; finish.
Qed.

Lemma npm_outline command directory timeout w :
  let x := run (npm_command command directory timeout) w in
  outline Npm command directory timeout w (outcome_of x) (trace_of x).
Proof.
  unfold run, outcome_of, trace_of, npm_command, npm_probe, in_directory;
    unfold_monad.
  destruct (truthy (strip command)) eqn:Hc; cbn [negb]; [|stopped].
  repeat step; finish.
Qed.

Lemma npx_outline command directory timeout w :
  let x := run (npx_command command directory timeout) w in
  outline Npx command directory timeout w (outcome_of x) (trace_of x).
Proof.
  unfold run, outcome_of, trace_of, npx_command, npx_probe, in_directory;
    unfold_monad.
  destruct (truthy (strip command)) eqn:Hc; cbn [negb]; [|stopped].
  repeat step; finish.
Qed.

Lemma yarn_argv command :
  (if negb (truthy (strip command)) then [lit "yarn"]
   else lit "yarn" :: split (strip command))
  = lit "yarn" :: split command.
Proof.
  destruct (truthy (strip command)) eqn:Hc; cbn [negb].
  - now rewrite split_strip.
  - now rewrite split_blank.
Qed.

Lemma yarn_outline command directory timeout w :
  let x := run (yarn_command command directory timeout) w in
  outline Yarn command directory timeout w (outcome_of x) (trace_of x).
Proof.
  unfold run, outcome_of, trace_of, yarn_command, yarn_probe, in_directory;
    unfold_monad.
  rewrite yarn_argv.
  repeat step; finish.
Qed.

Lemma bun_outline command directory timeout w :
  let x := run (bun_command command directory timeout) w in
  outline Bun command directory timeout w (outcome_of x) (trace_of x).
Proof.
  unfold run, outcome_of, trace_of, bun_command, bun_project, in_directory;
    unfold_monad.
  destruct (truthy (strip command)) eqn:Hc; cbn [negb]; [|stopped].
  repeat step.
  all: finish.
Qed.

(** The five bodies are instances of one component. *)
Lemma run_outline (t : tool) command directory timeout w :
  outline t command directory timeout w
    (outcome_of (run (tool_command t command directory timeout) w))
    (trace_of (run (tool_command t command directory timeout) w)).
Proof.
  destruct t;
    [ apply uv_outline | apply npm_outline | apply npx_outline
    | apply yarn_outline | apply bun_outline ].
Qed.

Lemma resolve_events_role t command (w : World) ev :
  In ev (resolve_events t command w) -> ev_role ev = ResolveProbe.
Proof.
  destruct t; cbn [resolve_events]; try contradiction.
  destruct (truthy (strip command)); [|contradiction].
  intros [<-|[]]; reflexivity.
Qed.

Lemma version_events_role t exe o ev :
  In ev (version_events t exe o) -> ev_role ev = VersionQuery.
Proof.
  unfold version_events; destruct (version_label t); [|contradiction].
  intros [<-|[]]; reflexivity.
Qed.

(** The main command of a run, when it was started: what was started
    and what the tool reports. *)
Lemma main_event_inv (t : tool) command directory timeout w ev :
  In ev (trace_of (run (tool_command t command directory timeout) w)) ->
  ev_role ev = MainCommand ->
  exists exe cwd version presence other_locks,
    resolved_executable t w = Ok exe
    /\ (forall d, supplied directory = Some d -> cwd = d)
    /\ List.length presence = List.length (marker_labels t)
    /\ (other_locks = true -> t = Bun)
    /\ ev_spawn ev = main_spawn (exe :: split command) cwd timeout
    /\ outcome_of (run (tool_command t command directory timeout) w)
       = Ok (conclude t command timeout cwd version presence other_locks
               (ev_outcome ev)).
Proof.
  intros Hin Hrole.
  pose proof (run_outline t command directory timeout w) as Ho.
  remember (outcome_of _) as r eqn:Er; remember (trace_of _) as tr eqn:Et.
  clear Er Et.
  destruct Ho as [report | exe cwd o_v presence other o_main Hexe Hcwd Hlen Hother].
  - apply resolve_events_role in Hin; congruence.
  - apply in_app_or in Hin as [Hin | Hin];
      [apply resolve_events_role in Hin; congruence|].
    apply in_app_or in Hin as [Hin | [<- | []]];
      [apply version_events_role in Hin; congruence|].
    exists exe, cwd, (version_of o_v), presence, other; cbn; auto 10.
Qed.

Lemma join_cons (sep a : pystr) (l : list pystr) :
  join sep (a :: l) = a ++ List.concat (List.map (app sep) l).
Proof.
  revert a; induction l as [|b l IH]; intros a.
  - cbn; now rewrite app_nil_r.
  - change (join sep (a :: b :: l)) with (a ++ sep ++ join sep (b :: l)).
    rewrite IH; cbn [List.map List.concat]; now rewrite <- app_assoc.
Qed.

Lemma join_app (sep : pystr) (l1 l2 : list pystr) :
  l1 <> [] ->
  join sep (l1 ++ l2) = join sep l1 ++ List.concat (List.map (app sep) l2).
Proof.
  destruct l1 as [|a l1]; [congruence|]; intros _.
  rewrite <- app_comm_cons, !join_cons, map_app, concat_app.
  apply app_assoc.
Qed.

Lemma join_tail (sep : pystr) (l0 a b c tail : list pystr) :
  l0 <> [] ->
  join sep (l0 ++ a ++ b ++ c ++ tail)
  = join sep (l0 ++ a ++ b ++ c) ++ List.concat (List.map (app sep) tail).
Proof.
  intros Hne.
  replace (l0 ++ a ++ b ++ c ++ tail) with ((l0 ++ a ++ b ++ c) ++ tail)
    by now rewrite <- !app_assoc.
  apply join_app; destruct l0; [congruence | discriminate].
Qed.

Lemma stream_parts_shown (result : CompletedProcess) :
  List.concat (List.map (app nl) (stream_parts result))
  = shown (lit "STDOUT") (stdout result) ++ shown (lit "STDERR") (stderr result).
Proof.
  unfold stream_parts, stream_part, shown.
  destruct (truthy (stdout result)), (truthy (stderr result));
    cbn [app List.map List.concat]; rewrite ?app_nil_r, <- ?app_assoc;
    reflexivity.
Qed.

(** A report of a completed command ends with the exit code and the
    two streams. *)
Lemma assemble_tail command_line directory version markers other_locks result :
  exists header,
    assemble command_line directory version markers other_locks result
    = header ++ lit "Exit code: " ++ str_of_Z (returncode result)
      ++ shown (lit "STDOUT") (stdout result)
      ++ shown (lit "STDERR") (stderr result).
Proof.
  unfold assemble.
  rewrite join_tail by discriminate.
  eexists.
  rewrite map_app, concat_app, stream_parts_shown.
  cbn [List.map List.concat]; rewrite app_nil_r, <- (app_assoc nl), !app_assoc.
  reflexivity.
Qed.

(** ** The claims *)

(** C1 (as amended).  When the main command of a tool is still running
    at the timeout, the report is exactly the timed-out message built
    from the timeout alone: it names the timed-out outcome, holds no
    exit code, and holds nothing of the output captured before the
    child was killed. *)
Theorem timed_out_report (t : tool) command directory timeout w sp out err :
  In (mkEvent MainCommand sp (Raise (TimeoutExpired out err)))
     (trace_of (run (tool_command t command directory timeout) w)) ->
  sp_timeout sp = timeout
  /\ outcome_of (run (tool_command t command directory timeout) w)
     = Ok (lit "Error: Command timed out after " ++ str_of_Z timeout
           ++ lit " seconds").
Proof.
  intros Hin.
  apply main_event_inv in Hin as (exe & cwd & v & p & o & _ & _ & _ & _ & Hsp & Hr);
    [|reflexivity].
  cbn in Hsp, Hr; subst sp; split; [reflexivity | exact Hr].
Qed.

(** C4 (as amended).  When the main command of a tool exits within the
    timeout, the report ends with the exact exit code followed by the
    captured standard output and standard error, each shown only when
    non-empty and with the whitespace at its two ends trimmed; nothing
    between the ends is cut. *)
Theorem completed_report (t : tool) command directory timeout w sp result :
  In (mkEvent MainCommand sp (Ok result))
     (trace_of (run (tool_command t command directory timeout) w)) ->
  (exists header,
     outcome_of (run (tool_command t command directory timeout) w)
     = Ok (header ++ lit "Exit code: " ++ str_of_Z (returncode result)
           ++ shown (lit "STDOUT") (stdout result)
           ++ shown (lit "STDERR") (stderr result)))
  /\ (exists l r, stdout result = l ++ strip (stdout result) ++ r
                  /\ forallb isspace l = true /\ forallb isspace r = true)
  /\ (exists l r, stderr result = l ++ strip (stderr result) ++ r
                  /\ forallb isspace l = true /\ forallb isspace r = true).
Proof.
  intros Hin.
  apply main_event_inv in Hin as (exe & cwd & v & p & o & _ & _ & _ & _ & _ & Hr);
    [|reflexivity].
  cbn [ev_outcome conclude] in Hr.
  repeat split; try apply strip_decompose.
  destruct (assemble_tail (command_line t command) cwd
              (option_map (fun label => (label, v)) (version_label t))
              (combine (marker_labels t) p) o result) as (header & Eh).
  exists header; now rewrite Hr, Eh.
Qed.

(** C5.  Whatever the command text, the directory, the timeout and the
    behaviour of the operating system and of the children, every tool
    returns a report and raises nothing. *)
Theorem tools_always_return (t : tool) command directory timeout w :
  exists report,
    outcome_of (run (tool_command t command directory timeout) w) = Ok report.
Proof.
  destruct (run_outline t command directory timeout w); eauto.
Qed.


(** C10.  The argument list of the main command is the executable
    followed by the command text split on runs of whitespace: no
    argument is empty or holds a whitespace character, every other
    character (a quote too) is kept as it is, and a run of whitespace
    of any length separates like a single one. *)
Theorem main_argv_split (t : tool) command directory timeout w ev :
  In ev (trace_of (run (tool_command t command directory timeout) w)) ->
  ev_role ev = MainCommand ->
  (exists exe, sp_argv (ev_spawn ev) = exe :: split command)
  /\ Forall (fun a => a <> [] /\ forallb notspace a = true) (split command)
  /\ List.concat (split command) = filter notspace command
  /\ (forall a ws b,
        command = a ++ ws ++ b -> ws <> [] -> forallb isspace ws = true ->
        split command = split a ++ split b).
Proof.
  intros Hin Hrole.
  apply main_event_inv in Hin as (exe & cwd & v & p & o & _ & _ & _ & _ & Hsp & _);
    [|assumption].
  repeat split.
  - exists exe; now rewrite Hsp.
  - apply split_words.
  - apply concat_split.
  - intros a ws b -> Hne Hws; now apply split_app.
Qed.

Lemma version_of_failed (o : result CompletedProcess) :
  query_failed o -> version_of o = lit "unknown".
Proof.
  destruct o as [cp|e]; cbn; [|reflexivity].
  intros Hrc; destruct (Z.eqb_spec (returncode cp) 0); [contradiction | reflexivity].
Qed.

(** C8.  The version query of [yarn_command] and [bun_command] runs
    under a timeout of at most 10 seconds; however it ends, the main
    command is started right after it and the tool returns a report;
    and when the query failed (it raised, or the child exited with a
    code other than 0) the report of a completed command shows the
    version ["unknown"]. *)
Theorem version_query_advisory (t : tool) command directory timeout w ev :
  In ev (trace_of (run (tool_command t command directory timeout) w)) ->
  ev_role ev = VersionQuery ->
  (t = Yarn \/ t = Bun)
  /\ (sp_timeout (ev_spawn ev) <= 10)%Z
  /\ exists before main report,
       trace_of (run (tool_command t command directory timeout) w)
       = before ++ [ev; main]
       /\ ev_role main = MainCommand
       /\ outcome_of (run (tool_command t command directory timeout) w)
          = Ok report
       /\ (query_failed (ev_outcome ev) ->
           forall result, ev_outcome main = Ok result ->
           exists label cwd presence other_locks,
             version_label t = Some label
             /\ report
                = assemble (command_line t command) cwd
                    (Some (label, lit "unknown"))
                    (combine (marker_labels t) presence) other_locks result).
Proof.
  intros Hin Hrole.
  pose proof (run_outline t command directory timeout w) as Ho.
  remember (outcome_of _) as r eqn:Er; remember (trace_of _) as tr eqn:Et.
  clear Er Et.
  destruct Ho as [report | exe cwd o_v presence other o_main Hexe Hcwd Hlen Hother].
  - apply resolve_events_role in Hin; congruence.
  - apply in_app_or in Hin as [Hin | Hin];
      [apply resolve_events_role in Hin; congruence|].
    apply in_app_or in Hin as [Hin | [<- | []]]; [|discriminate].
    unfold version_events in *.
    destruct (version_label t) as [label|] eqn:El; [|contradiction].
    destruct Hin as [<- | []].
    split; [destruct t; try discriminate; auto|].
    split; [cbn; lia|].
    eexists _, _, _; split; [reflexivity|].
    split; [reflexivity|]. split; [reflexivity|].
    cbn [ev_outcome]; intros Hfail result ->.
    exists label, cwd, presence, other; split; [reflexivity|].
    cbn [conclude]; now rewrite El, (version_of_failed _ Hfail).
Qed.


(** C2 (as amended).  With a command text that is empty or only
    whitespace, [uv_command], [npm_command], [npx_command] and
    [bun_command] return the validation failure and start no child.
    [yarn_command] does not reject it: its report is never that
    validation failure, and the main command it starts is the bare
    [yarn]. *)
Theorem blank_command (t : tool) command directory timeout w :
  truthy (strip command) = false ->
  (t <> Yarn ->
   outcome_of (run (tool_command t command directory timeout) w)
   = Ok (lit "Error: Empty command provided")
   /\ trace_of (run (tool_command t command directory timeout) w) = [])
  /\ (t = Yarn ->
      outcome_of (run (tool_command t command directory timeout) w)
      <> Ok (lit "Error: Empty command provided")
      /\ forall ev,
           In ev (trace_of (run (tool_command t command directory timeout) w)) ->
           ev_role ev = MainCommand ->
           sp_argv (ev_spawn ev) = [lit "yarn"]).
Proof.
  intros Hblank; split; intros Ht.
  - destruct t; try congruence;
      unfold run, outcome_of, trace_of, tool_command, uv_command, npm_command,
        npx_command, bun_command;
      unfold_monad; rewrite Hblank; cbn; auto.
  - subst t; split.
    + unfold run, outcome_of, tool_command, yarn_command, yarn_probe,
        in_directory; unfold_monad.
      rewrite Hblank; cbn [negb].
      repeat step; cbn; discriminate.
    + intros ev Hin Hrole.
      apply main_event_inv in Hin as (exe & cwd & v & p & o & He & _ & _ & _ & Hsp & _);
        [|assumption].
      rewrite Hsp; cbn in He |- *.
      rewrite (split_blank _ Hblank); congruence.
Qed.

(** C3 (as amended).  With a supplied, non-empty target directory that
    does not exist, no tool starts its version query or its main
    command.  [uv_command], [npm_command], [npx_command] and
    [yarn_command] start no child at all; [bun_command] has started
    its resolution probe, and only that, before it looks at the
    directory.  The report is a validation failure, unless the probe
    of [bun_command] failed otherwise than by not-found or timeout. *)
Theorem missing_directory (t : tool) command d timeout w :
  d <> [] ->
  path_exists (world_at_directory_check t w) d = false ->
  trace_of (run (tool_command t command (Some d) timeout) w)
  = resolve_events t command w
  /\ (t <> Bun ->
      trace_of (run (tool_command t command (Some d) timeout) w) = [])
  /\ ((forall msg, resolved_executable t w <> Raise (OtherException msg)) ->
      outcome_of (run (tool_command t command (Some d) timeout) w)
      = Ok (lit "Error: Empty command provided")
      \/ outcome_of (run (tool_command t command (Some d) timeout) w)
         = Ok (lit "Error: Directory '" ++ d ++ lit "' does not exist")).
Proof.
  intros Hne Hmissing.
  destruct d as [|c d]; [congruence|].
  destruct t; cbn [world_at_directory_check] in Hmissing.
  1-4: unfold run, outcome_of, trace_of, tool_command, uv_command, npm_command,
         npx_command, yarn_command, in_directory;
       cbn [supplied]; unfold_monad;
       destruct (truthy (strip command)); cbn [negb fst snd];
       rewrite ?Hmissing; cbn; auto.
  unfold run, outcome_of, trace_of, tool_command, bun_command, in_directory,
    resolved_executable.
  cbn [supplied resolve_events]; unfold_monad.
  destruct (truthy (strip command)); cbn [negb fst snd]; [|now auto].
  rewrite resolve_bun_run; cbn [fst snd].
  destruct (spawn w bun_probe) as [o w'] eqn:Hp; cbn [fst snd] in *.
  unfold resolved.
  destruct o as [cp | [out err | msg | msg]]; cbn [fst snd];
    rewrite ?Hmissing; cbn [fst snd app];
    (split; [reflexivity|]); (split; [congruence|]); intros Hres; auto.
  now destruct (Hres msg).
Qed.


End ToolFacts.

(** ** The claims on concrete runs *)

Section Runs.

Import Scripted.

(** An [npm install] killed at a timeout of 7 seconds. *)
Lemma timed_out_report_witness :
  In (mkEvent MainCommand
        (main_spawn [lit "npm"; lit "install"] (lit "/proj") 7)
        (Raise (TimeoutExpired npm_out npm_err)))
     (trace_of (run (tool_command Npm (lit "install") None 7) npm_times_out))
  /\ sp_timeout (main_spawn [lit "npm"; lit "install"] (lit "/proj") 7) = 7%Z
  /\ outcome_of (run (tool_command Npm (lit "install") None 7) npm_times_out)
     = Ok (lit "Error: Command timed out after " ++ str_of_Z 7 ++ lit " seconds").
Proof.
  split.
  - left; reflexivity.
  - apply (timed_out_report Npm (lit "install") None 7 npm_times_out
             (main_spawn [lit "npm"; lit "install"] (lit "/proj") 7)
             npm_out npm_err).
    left; reflexivity.
Defined.

(** C1 as stated fails: [npm install] had written to both streams when
    it was killed at the timeout, and the report holds neither text. *)
Lemma timed_out_report_drops_output :
  trace_of (run (npm_command (lit "install") None 7) npm_times_out)
  = [ mkEvent MainCommand
        (main_spawn [lit "npm"; lit "install"] (lit "/proj") 7)
        (Raise (TimeoutExpired npm_out npm_err)) ]
  /\ outcome_of (run (npm_command (lit "install") None 7) npm_times_out)
     = Ok (lit "Error: Command timed out after 7 seconds")
  /\ contains (lit "Error: Command timed out after 7 seconds") npm_out = false
  /\ contains (lit "Error: Command timed out after 7 seconds") npm_err = false.
Proof. repeat split; vm_compute; reflexivity. Qed.

(** [bun_command] with a command of three spaces. *)
Lemma blank_command_witness :
  truthy (strip (lit "   ")) = false
  /\ outcome_of (run (tool_command Bun (lit "   ") None 60) bun_absent)
     = Ok (lit "Error: Empty command provided")
  /\ trace_of (run (tool_command Bun (lit "   ") None 60) bun_absent) = [].
Proof.
  split.
  - reflexivity.
  - apply (blank_command Bun (lit "   ") None 60 bun_absent).
    + reflexivity.
    + discriminate.
Defined.

(** C2 as stated fails: [yarn_command] with a blank command starts the
    version query and the bare [yarn], and reports the run. *)
Lemma blank_command_runs_yarn :
  truthy (strip (lit "   ")) = false
  /\ trace_of (run (yarn_command (lit "   ") None 60) yarn_installed)
     = [ mkEvent VersionQuery (version_spawn (lit "yarn"))
           (Ok (mkCompleted 0 (lit "1.22.19" ++ nl) []));
         mkEvent MainCommand (main_spawn [lit "yarn"] (lit "/proj") 60)
           (exited 0 "Done in 0.05s." "") ]
  /\ outcome_of (run (yarn_command (lit "   ") None 60) yarn_installed)
     = Ok (join nl [ lit "Command: yarn";
                     lit "Directory: /proj";
                     lit "Yarn version: 1.22.19";
                     lit "Package.json present: True";
                     lit "Yarn.lock present: False";
                     lit "Node_modules present: False";
                     lit "Exit code: 0";
                     [];
                     lit "STDOUT:";
                     lit "Done in 0.05s." ]).
Proof. repeat split; vm_compute; reflexivity. Qed.

(** [npm_command] in a directory that is not there. *)
Lemma missing_directory_witness :
  lit "/nope" <> []
  /\ path_exists (world_at_directory_check Npm bun_absent) (lit "/nope") = false
  /\ trace_of (run (tool_command Npm (lit "install") (Some (lit "/nope")) 60)
                 bun_absent)
     = resolve_events Npm (lit "install") bun_absent
  /\ (Npm <> Bun ->
      trace_of (run (tool_command Npm (lit "install") (Some (lit "/nope")) 60)
                  bun_absent) = [])
  /\ ((forall msg,
         resolved_executable Npm bun_absent <> Raise (OtherException msg)) ->
      outcome_of (run (tool_command Npm (lit "install") (Some (lit "/nope")) 60)
                    bun_absent)
      = Ok (lit "Error: Empty command provided")
      \/ outcome_of (run (tool_command Npm (lit "install") (Some (lit "/nope")) 60)
                       bun_absent)
         = Ok (lit "Error: Directory '" ++ lit "/nope" ++ lit "' does not exist")).
Proof.
  split; [discriminate|].
  split; [reflexivity|].
  apply (missing_directory Npm (lit "install") (d := lit "/nope") 60 bun_absent).
  - discriminate.
  - reflexivity.
Defined.

(** C3 as stated fails: [bun_command] has started its probe of the bare
    [bun] when it reports the missing directory. *)
Lemma missing_directory_after_probe :
  path_exists (snd (spawn bun_on_path bun_probe)) (lit "/nope") = false
  /\ trace_of (run (bun_command (lit "install") (Some (lit "/nope")) 60)
                 bun_on_path)
     = [ mkEvent ResolveProbe bun_probe
           (exited 0 "Bun is a fast JavaScript runtime" "") ]
  /\ outcome_of (run (bun_command (lit "install") (Some (lit "/nope")) 60)
                   bun_on_path)
     = Ok (lit "Error: Directory '/nope' does not exist").
Proof. repeat split; vm_compute; reflexivity. Qed.

(** [uv run script.py] exits with 0 after printing a line. *)
Lemma completed_report_witness :
  In (mkEvent MainCommand
        (main_spawn [lit "uv"; lit "run"; lit "script.py"] (lit "/proj") 60)
        (Ok (mkCompleted 0 indented [])))
     (trace_of (run (tool_command Uv (lit "run script.py") None 60) uv_prints))
  /\ (exists header,
        outcome_of (run (tool_command Uv (lit "run script.py") None 60) uv_prints)
        = Ok (header ++ lit "Exit code: " ++ str_of_Z 0
              ++ shown (lit "STDOUT") indented ++ shown (lit "STDERR") [])).
Proof.
  split.
  - left; reflexivity.
  - apply (completed_report Uv (lit "run script.py") None 60 uv_prints
             (main_spawn [lit "uv"; lit "run"; lit "script.py"] (lit "/proj") 60)
             (mkCompleted 0 indented [])).
    left; reflexivity.
Defined.

(** C4 as stated fails: the child printed an indented line and a line
    end; the report shows the line without the indentation and the
    line end, so the captured text is not in the report. *)
Lemma completed_report_trims_output :
  trace_of (run (uv_command (lit "run script.py") None 60) uv_prints)
  = [ mkEvent MainCommand
        (main_spawn [lit "uv"; lit "run"; lit "script.py"] (lit "/proj") 60)
        (Ok (mkCompleted 0 indented [])) ]
  /\ outcome_of (run (uv_command (lit "run script.py") None 60) uv_prints)
     = Ok (join nl [ lit "Command: uv run script.py";
                     lit "Directory: /proj";
                     lit "Exit code: 0";
                     [];
                     lit "STDOUT:";
                     lit "indented" ])
  /\ contains (join nl [ lit "Command: uv run script.py";
                         lit "Directory: /proj";
                         lit "Exit code: 0";
                         [];
                         lit "STDOUT:";
                         lit "indented" ]) indented = false.
Proof. repeat split; vm_compute; reflexivity. Qed.





(** [yarn --version] hangs and [yarn install] still runs. *)
Lemma version_query_advisory_witness :
  In (mkEvent VersionQuery (version_spawn (lit "yarn"))
        (Raise (TimeoutExpired [] [])))
     (trace_of (run (tool_command Yarn (lit "install") None 60)
                  yarn_version_hangs))
  /\ ev_role (mkEvent VersionQuery (version_spawn (lit "yarn"))
                (Raise (TimeoutExpired [] []))) = VersionQuery
  /\ (sp_timeout (version_spawn (lit "yarn")) <= 10)%Z.
Proof.
  assert (Hin :
    In (mkEvent VersionQuery (version_spawn (lit "yarn"))
          (Raise (TimeoutExpired [] [])))
       (trace_of (run (tool_command Yarn (lit "install") None 60)
                    yarn_version_hangs)))
    by (left; reflexivity).
  split; [exact Hin|]; split; [reflexivity|].
  exact (proj1 (proj2
    (version_query_advisory Yarn (lit "install") None 60 yarn_version_hangs
       (mkEvent VersionQuery (version_spawn (lit "yarn"))
          (Raise (TimeoutExpired [] [])))
       Hin eq_refl))).
Defined.



(** [uv_command] with a run of spaces inside the command. *)
Lemma main_argv_split_witness :
  In (mkEvent MainCommand
        (main_spawn [lit "uv"; lit "run"; lit "script.py"] (lit "/proj") 60)
        (Ok (mkCompleted 0 indented [])))
     (trace_of (run (tool_command Uv (lit "run   script.py ") None 60) uv_prints))
  /\ ev_role (mkEvent MainCommand
                (main_spawn [lit "uv"; lit "run"; lit "script.py"] (lit "/proj") 60)
                (Ok (mkCompleted 0 indented []))) = MainCommand
  /\ Forall (fun a => a <> [] /\ forallb notspace a = true)
       (split (lit "run   script.py ")).
Proof.
  assert (Hin :
    In (mkEvent MainCommand
          (main_spawn [lit "uv"; lit "run"; lit "script.py"] (lit "/proj") 60)
          (Ok (mkCompleted 0 indented [])))
       (trace_of (run (tool_command Uv (lit "run   script.py ") None 60)
                    uv_prints)))
    by (left; reflexivity).
  split; [exact Hin|]; split; [reflexivity|].
  exact (proj1 (proj2
    (main_argv_split Uv (lit "run   script.py ") None 60 uv_prints _ Hin eq_refl))).
Defined.

End Runs.

(** * Further properties of the package-manager tools *)

Unset Implicit Arguments.

Section ToolRuns.

Context {World : Type} `{OS World}.

Ltac unfold_monad :=
  unfold try_except, bind, ret, raise, subprocess_run, os_getcwd,
    os_path_exists, exists_in, os_path_expanduser in *;
  cbn [fst snd] in *.

Ltac step :=
  first
    [ rewrite version_query_run
    | rewrite resolve_bun_run
    | match goal with
      | |- context [match ?x with _ => _ end] =>
          lazymatch x with
          | context [match _ with _ => _ end] => fail
          | _ => destruct x eqn:?
          end
      end ];
  cbn [fst snd] in *.

Ltac feed :=
  repeat (match goal with
          | E : Path_exists _ _ _ = Ok _ |- _ => rewrite E
          end; cbn [fst snd]).

(** The run of a tool whose validation passes and whose lookups all
    answer. *)
Lemma run_started (t : tool) command directory timeout w
    exe cwd presence other_locks :
  t = Yarn \/ truthy (strip command) = true ->
  resolved_executable t w = Ok exe ->
  working_directory directory (world_at_directory_check t w) cwd ->
  List.map (Path_exists (world_at_directory_check t w) cwd) (marker_files t)
  = List.map Ok presence ->
  other_locks_at t (world_at_directory_check t w) cwd = Ok other_locks ->
  let w1 := world_at_directory_check t w in
  let o_version := fst (spawn w1 (version_spawn exe)) in
  let w2 := world_before_main t exe w1 in
  let sp := main_spawn (exe :: split command) cwd timeout in
  trace_of (run (tool_command t command directory timeout) w)
  = resolve_events t command w ++ version_events t exe o_version
    ++ [ mkEvent MainCommand sp (fst (spawn w2 sp)) ]
  /\ outcome_of (run (tool_command t command directory timeout) w)
     = Ok (conclude t command timeout cwd (version_of o_version) presence
             other_locks (fst (spawn w2 sp)))
  /\ world_of (run (tool_command t command directory timeout) w)
     = snd (spawn w2 sp).
Proof.
  intros Hcmd Hexe Hcwd Hmarkers Hother.
  unfold working_directory in Hcwd. cbv zeta.
  enough (Hrun :
    run (tool_command t command directory timeout) w
    = (Ok (conclude t command timeout cwd
             (version_of (fst (spawn (world_at_directory_check t w)
                                 (version_spawn exe))))
             presence other_locks
             (fst (spawn (world_before_main t exe (world_at_directory_check t w))
                     (main_spawn (exe :: split command) cwd timeout)))),
       (snd (spawn (world_before_main t exe (world_at_directory_check t w))
               (main_spawn (exe :: split command) cwd timeout)),
        resolve_events t command w
        ++ version_events t exe
             (fst (spawn (world_at_directory_check t w) (version_spawn exe)))
        ++ [ mkEvent MainCommand (main_spawn (exe :: split command) cwd timeout)
               (fst (spawn (world_before_main t exe (world_at_directory_check t w))
                       (main_spawn (exe :: split command) cwd timeout))) ])))
    by (rewrite Hrun; repeat split).
  assert (Hdir :
    forall k : pystr -> M pystr,
      in_directory directory k (world_at_directory_check t w, resolve_events t command w)
      = k cwd (world_at_directory_check t w, resolve_events t command w)).
  { intros k; unfold in_directory.
    destruct (supplied directory) as [d|]; unfold_monad.
    - destruct Hcwd as [Hd ->]; now rewrite Hd.
    - now rewrite Hcwd. }
  destruct t; cbn [world_at_directory_check marker_files List.map
                   other_locks_at resolved_executable tool_name
                   world_before_main version_label resolve_events
                   version_events app] in *.
  - (* uv *)
    destruct Hcmd as [|Hcmd]; [discriminate|].
    replace exe with (lit "uv") by congruence.
    replace other_locks with false by congruence.
    destruct presence; [|discriminate].
    unfold run, tool_command, uv_command.
    unfold try_except; rewrite Hcmd; cbn [negb]; rewrite Hdir.
    unfold_monad.
    destruct (spawn w (main_spawn _ _ _)) as [[result|[out err|msg|msg]] w'];
      cbn [fst snd app]; reflexivity.
  - (* npm *)
    destruct Hcmd as [|Hcmd]; [discriminate|].
    replace exe with (lit "npm") by congruence.
    replace other_locks with false by congruence.
    destruct presence as [|b1 [|]]; try discriminate.
    cbn [List.map] in Hmarkers.
    assert (H1 : Path_exists w cwd (lit "package.json") = Ok b1) by congruence.
    unfold run, tool_command, npm_command,
      npm_probe.
    unfold try_except; rewrite Hcmd; cbn [negb]; rewrite Hdir.
    unfold_monad; feed.
    destruct (spawn w (main_spawn _ _ _)) as [[result|[out err|msg|msg]] w'];
      cbn [fst snd app]; reflexivity.
  - (* npx *)
    destruct Hcmd as [|Hcmd]; [discriminate|].
    replace exe with (lit "npx") by congruence.
    replace other_locks with false by congruence.
    destruct presence as [|b1 [|b2 [|]]]; try discriminate.
    cbn [List.map] in Hmarkers.
    assert (H1 : Path_exists w cwd (lit "package.json") = Ok b1) by congruence.
    assert (H2 : Path_exists w cwd (lit "node_modules") = Ok b2) by congruence.
    unfold run, tool_command, npx_command,
      npx_probe.
    unfold try_except; rewrite Hcmd; cbn [negb]; rewrite Hdir.
    unfold_monad; feed.
    destruct (spawn w (main_spawn _ _ _)) as [[result|[out err|msg|msg]] w'];
      cbn [fst snd app]; reflexivity.
  - (* yarn *)
    clear Hcmd.
    replace exe with (lit "yarn") by congruence.
    replace other_locks with false by congruence.
    destruct presence as [|b1 [|b2 [|b3 [|]]]]; try discriminate.
    cbn [List.map] in Hmarkers.
    assert (H1 : Path_exists w cwd (lit "package.json") = Ok b1) by congruence.
    assert (H2 : Path_exists w cwd (lit "yarn.lock") = Ok b2) by congruence.
    assert (H3 : Path_exists w cwd (lit "node_modules") = Ok b3) by congruence.
    unfold run, tool_command, yarn_command,
      yarn_probe.
    unfold try_except; cbv zeta; rewrite yarn_argv, Hdir.
    unfold_monad; feed; rewrite version_query_run; cbn [fst snd].
    destruct (spawn _ (main_spawn _ _ _)) as [[result|[out err|msg|msg]] w'];
      cbn [fst snd app]; reflexivity.
  - (* bun *)
    destruct Hcmd as [|Hcmd]; [discriminate|].
    rewrite Hcmd in *.
    destruct presence as [|b1 [|b2 [|b3 [|]]]]; try discriminate.
    cbn [List.map] in Hmarkers.
    set (w1 := snd (spawn w bun_probe)) in *.
    assert (H1 : Path_exists w1 cwd (lit "package.json") = Ok b1) by congruence.
    assert (H2 : Path_exists w1 cwd (lit "bun.lockb") = Ok b2) by congruence.
    assert (H3 : Path_exists w1 cwd (lit "node_modules") = Ok b3) by congruence.
    unfold run, tool_command, bun_command,
      bun_project.
    assert (Hres : resolved w1 (fst (spawn w bun_probe)) = Ok exe).
    { subst w1; destruct (spawn w bun_probe); exact Hexe. }
    unfold try_except; rewrite Hcmd; cbn [negb].
    unfold bind at 1; rewrite resolve_bun_run; cbn [fst snd app].
    fold w1; rewrite Hres, Hdir.
    unfold_monad; feed.
    destruct (Path_exists w1 cwd (lit "yarn.lock")) as [[|]|e] eqn:Hy;
      try discriminate; cbn [fst snd].
    + replace other_locks with true by congruence.
      rewrite version_query_run; cbn [fst snd].
      destruct (spawn _ (main_spawn _ _ _)) as [[result|[out err|msg|msg]] w'];
        cbn [fst snd app]; reflexivity.
    + rewrite Hother; cbn [fst snd].
      rewrite version_query_run; cbn [fst snd].
      destruct (spawn _ (main_spawn _ _ _)) as [[result|[out err|msg|msg]] w'];
        cbn [fst snd app]; reflexivity.
Qed.

Ltac split_in Hin :=
  cbn [app In] in Hin;
  repeat match type of Hin with
         | _ \/ _ => destruct Hin as [Hin | Hin]
         | False => contradiction
         end.

Ltac marker name :=
  match goal with
  | E : Path_exists _ _ (lit name) = Ok ?b |- _ => b
  end.

Ltac close_context :=
  split;
  [ first [ left; reflexivity | right; reflexivity | right; assumption ] |];
  split;
  [ first
      [ reflexivity
      | unfold resolved_executable;
        match goal with
        | E : resolved _ _ = Ok _ |- _ => destruct (spawn _ bun_probe); exact E
        end ] |];
  split;
  [ unfold working_directory; cbn [world_at_directory_check];
    match goal with
    | E : supplied _ = _ |- _ => rewrite E
    end;
    first [ eassumption | split; [eassumption | reflexivity] ] |];
  split;
  [ cbn [marker_files List.map world_at_directory_check];
    repeat match goal with
           | E : Path_exists _ _ _ = Ok _ |- _ => rewrite E
           end; reflexivity
  | cbn [other_locks_at world_at_directory_check];
    repeat match goal with
           | E : Path_exists _ _ _ = Ok _ |- _ => rewrite E
           end; reflexivity ].

(** What a tool has found when it starts its main command. *)
Lemma main_command_context (t : tool) command directory timeout w ev :
  In ev (trace_of (run (tool_command t command directory timeout) w)) ->
  ev_role ev = MainCommand ->
  exists exe cwd presence other_locks,
    (t = Yarn \/ truthy (strip command) = true)
    /\ resolved_executable t w = Ok exe
    /\ working_directory directory (world_at_directory_check t w) cwd
    /\ List.map (Path_exists (world_at_directory_check t w) cwd) (marker_files t)
       = List.map Ok presence
    /\ other_locks_at t (world_at_directory_check t w) cwd = Ok other_locks.
Proof.
  intros Hin Hrole.
  destruct t;
    unfold run, trace_of, tool_command, uv_command, npm_command, npm_probe,
      npx_command, npx_probe, yarn_command, yarn_probe, bun_command,
      bun_project, in_directory in Hin;
    unfold_monad.
  - (* uv *)
    destruct (truthy (strip command)) eqn:Hc; cbn [negb fst snd] in Hin;
      [|contradiction].
    revert Hin; repeat step; intros Hin; split_in Hin; subst ev;
      try discriminate Hrole.
    all: eexists (lit "uv"), _, [], false; close_context.
  - (* npm *)
    destruct (truthy (strip command)) eqn:Hc; cbn [negb fst snd] in Hin;
      [|contradiction].
    revert Hin; repeat step; intros Hin; split_in Hin; subst ev;
      try discriminate Hrole.
    all: let b1 := marker constr:("package.json"%string) in
         eexists (lit "npm"), _, [b1], false; close_context.
  - (* npx *)
    destruct (truthy (strip command)) eqn:Hc; cbn [negb fst snd] in Hin;
      [|contradiction].
    revert Hin; repeat step; intros Hin; split_in Hin; subst ev;
      try discriminate Hrole.
    all: let b1 := marker constr:("package.json"%string) in
         let b2 := marker constr:("node_modules"%string) in
         eexists (lit "npx"), _, [b1; b2], false; close_context.
  - (* yarn *)
    revert Hin; repeat step; intros Hin; split_in Hin; subst ev;
      try discriminate Hrole.
    all: let b1 := marker constr:("package.json"%string) in
         let b2 := marker constr:("yarn.lock"%string) in
         let b3 := marker constr:("node_modules"%string) in
         eexists (lit "yarn"), _, [b1; b2; b3], false; close_context.
  - (* bun *)
    destruct (truthy (strip command)) eqn:Hc; cbn [negb fst snd] in Hin;
      [|contradiction].
    revert Hin; repeat step; intros Hin; split_in Hin; subst ev;
      try discriminate Hrole.
    all: let b1 := marker constr:("package.json"%string) in
         let b2 := marker constr:("bun.lockb"%string) in
         let b3 := marker constr:("node_modules"%string) in
         let other :=
           match goal with
           | E : Path_exists _ _ (lit "yarn.lock") = Ok true |- _ => constr:(true)
           | E : Path_exists _ _ (lit "package-lock.json") = Ok ?b |- _ => b
           end in
         eexists _, _, [b1; b2; b3], other; close_context.
Qed.

(** The main command of a run, with all the run found before it. *)
Lemma main_event_full (t : tool) command directory timeout w ev :
  In ev (trace_of (run (tool_command t command directory timeout) w)) ->
  ev_role ev = MainCommand ->
  exists exe cwd presence other_locks,
    working_directory directory (world_at_directory_check t w) cwd
    /\ List.map (Path_exists (world_at_directory_check t w) cwd) (marker_files t)
       = List.map Ok presence
    /\ ev_spawn ev = main_spawn (exe :: split command) cwd timeout
    /\ outcome_of (run (tool_command t command directory timeout) w)
       = Ok (conclude t command timeout cwd
               (version_of (fst (spawn (world_at_directory_check t w)
                                   (version_spawn exe))))
               presence other_locks (ev_outcome ev)).
Proof.
  intros Hin Hrole.
  destruct (main_command_context _ _ _ _ _ _ Hin Hrole)
    as (exe & cwd & presence & other & Hcmd & Hexe & Hcwd & Hmarkers & Hother).
  destruct (run_started _ _ _ timeout _ _ _ _ _
              Hcmd Hexe Hcwd Hmarkers Hother) as (Htrace & Hout & _).
  exists exe, cwd, presence, other.
  rewrite Htrace in Hin.
  apply in_app_or in Hin as [Hin | Hin];
    [apply resolve_events_role in Hin; congruence|].
  apply in_app_or in Hin as [Hin | [<- | []]];
    [apply version_events_role in Hin; congruence|].
  cbn [ev_spawn ev_outcome]; auto.
Qed.

(** X1.  When validation passes and every lookup answers, a tool
    starts its main command: the executable followed by the split
    command, in the working directory, under the caller's timeout; it
    is the last child, and the report is the one for the way it ended,
    with the marker fields as they were before it ran. *)
Theorem main_command_started (t : tool) command directory timeout w
    exe cwd presence other_locks :
  t = Yarn \/ truthy (strip command) = true ->
  resolved_executable t w = Ok exe ->
  working_directory directory (world_at_directory_check t w) cwd ->
  List.map (Path_exists (world_at_directory_check t w) cwd) (marker_files t)
  = List.map Ok presence ->
  other_locks_at t (world_at_directory_check t w) cwd = Ok other_locks ->
  let w1 := world_at_directory_check t w in
  let o_version := fst (spawn w1 (version_spawn exe)) in
  let w2 := world_before_main t exe w1 in
  let sp := main_spawn (exe :: split command) cwd timeout in
  trace_of (run (tool_command t command directory timeout) w)
  = resolve_events t command w ++ version_events t exe o_version
    ++ [ mkEvent MainCommand sp (fst (spawn w2 sp)) ]
  /\ outcome_of (run (tool_command t command directory timeout) w)
     = Ok (conclude t command timeout cwd (version_of o_version) presence
             other_locks (fst (spawn w2 sp)))
  /\ world_of (run (tool_command t command directory timeout) w)
     = snd (spawn w2 sp).
Proof. apply run_started. Qed.

(** X2.  The main command runs in the supplied directory when one is
    supplied, and then that directory exists; otherwise it runs in
    [os.getcwd()].  It never runs anywhere else. *)
Theorem main_command_directory (t : tool) command directory timeout w ev :
  In ev (trace_of (run (tool_command t command directory timeout) w)) ->
  ev_role ev = MainCommand ->
  exists cwd,
    sp_cwd (ev_spawn ev) = Some cwd
    /\ match supplied directory with
       | Some d => cwd = d /\ path_exists (world_at_directory_check t w) d = true
       | None => getcwd (world_at_directory_check t w) = Ok cwd
       end.
Proof.
  intros Hin Hrole.
  destruct (main_event_full _ _ _ _ _ _ Hin Hrole)
    as (exe & cwd & presence & other & Hcwd & _ & Hsp & _).
  exists cwd; rewrite Hsp; split; [reflexivity|].
  unfold working_directory in Hcwd.
  destruct (supplied directory); tauto.
Qed.

(** X3.  The marker fields of a report are the state of the working
    directory before the main command ran: each field is the answer of
    the lookup of its marker file in the world in which the directory
    was checked. *)
Theorem markers_before_command (t : tool) command directory timeout w sp result :
  In (mkEvent MainCommand sp (Ok result))
     (trace_of (run (tool_command t command directory timeout) w)) ->
  exists cwd version presence other_locks,
    outcome_of (run (tool_command t command directory timeout) w)
    = Ok (assemble (command_line t command) cwd
            (option_map (fun label => (label, version)) (version_label t))
            (combine (marker_labels t) presence) other_locks result)
    /\ List.map (Path_exists (world_at_directory_check t w) cwd) (marker_files t)
       = List.map Ok presence.
Proof.
  intros Hin.
  destruct (main_event_full _ _ _ _ _ _ Hin eq_refl)
    as (exe & cwd & presence & other & _ & Hmarkers & _ & Hout).
  eexists cwd, _, presence, other; split; [exact Hout | exact Hmarkers].
Qed.

(** X4.  No retries and a bounded number of children: a run starts at
    most one child for [uv_command], [npm_command] and [npx_command],
    two for [yarn_command], three for [bun_command]; at most one of
    them is the main command, and it is the last. *)
Theorem single_attempt (t : tool) command directory timeout w :
  (List.length (trace_of (run (tool_command t command directory timeout) w))
   <= match t with Uv | Npm | Npx => 1 | Yarn => 2 | Bun => 3 end)%nat
  /\ (Forall (fun ev => ev_role ev <> MainCommand)
        (trace_of (run (tool_command t command directory timeout) w))
      \/ exists before main,
           trace_of (run (tool_command t command directory timeout) w)
           = before ++ [main]
           /\ ev_role main = MainCommand
           /\ Forall (fun ev => ev_role ev <> MainCommand) before).
Proof.
  pose proof (run_outline t command directory timeout w) as Ho.
  remember (outcome_of _) as r eqn:Er; remember (trace_of _) as tr eqn:Et.
  clear Er Et.
  assert (Hres : Forall (fun ev => ev_role ev <> MainCommand)
                   (resolve_events t command w)).
  { apply Forall_forall; intros ev Hev.
    apply resolve_events_role in Hev; congruence. }
  assert (Hlen : (List.length (resolve_events t command w)
                  <= match t with Bun => 1 | _ => 0 end)%nat).
  { destruct t; cbn; try lia. destruct (truthy (strip command)); cbn; lia. }
  destruct Ho as [report | exe cwd o_v presence other o_main _ _ _ _].
  - split; [destruct t; lia | left; exact Hres].
  - split.
    + rewrite !length_app; cbn [List.length].
      unfold version_events; destruct t; cbn in *; lia.
    + right.
      eexists (resolve_events t command w ++ version_events t exe o_v), _.
      rewrite <- app_assoc; split; [reflexivity|]; split; [reflexivity|].
      apply Forall_app; split; [exact Hres|].
      apply Forall_forall; intros ev Hev.
      apply version_events_role in Hev; congruence.
Qed.

(** X5.  A main command that does not complete is reported by the
    kind of its exception alone: the timed-out message, the not-found
    message of the tool for [FileNotFoundError], and for any other
    exception ["Error running <tool> command: "] followed by the text
    of the exception. *)
Theorem main_failure_report (t : tool) command directory timeout w sp e :
  In (mkEvent MainCommand sp (Raise e))
     (trace_of (run (tool_command t command directory timeout) w)) ->
  outcome_of (run (tool_command t command directory timeout) w)
  = Ok match e with
       | TimeoutExpired _ _ =>
           lit "Error: Command timed out after " ++ str_of_Z timeout
           ++ lit " seconds"
       | FileNotFoundError _ => not_found_error t
       | OtherException msg =>
           lit "Error running " ++ tool_name t ++ lit " command: " ++ msg
       end.
Proof.
  intros Hin.
  apply main_event_inv in Hin
    as (exe & cwd & v & p & o & _ & _ & _ & _ & _ & Hr); [|reflexivity].
  rewrite Hr; destruct e; reflexivity.
Qed.

(** X6.  The version a report shows after a version query that exited
    with code 0 is the trimmed standard output of that query. *)
Theorem version_shown (t : tool) command directory timeout w sp_v sp
    version_result result :
  In (mkEvent VersionQuery sp_v (Ok version_result))
     (trace_of (run (tool_command t command directory timeout) w)) ->
  returncode version_result = 0%Z ->
  In (mkEvent MainCommand sp (Ok result))
     (trace_of (run (tool_command t command directory timeout) w)) ->
  exists label cwd presence other_locks,
    version_label t = Some label
    /\ outcome_of (run (tool_command t command directory timeout) w)
       = Ok (assemble (command_line t command) cwd
               (Some (label, strip (stdout version_result)))
               (combine (marker_labels t) presence) other_locks result).
Proof.
  intros Hv Hrc Hm.
  pose proof (run_outline t command directory timeout w) as Ho.
  remember (outcome_of _) as r eqn:Er; remember (trace_of _) as tr eqn:Et.
  clear Er Et.
  destruct Ho as [report | exe cwd o_v presence other o_main _ _ _ _].
  - apply resolve_events_role in Hv; discriminate.
  - apply in_app_or in Hv as [Hv | Hv];
      [apply resolve_events_role in Hv; discriminate|].
    apply in_app_or in Hv as [Hv | [Hv | []]]; [|discriminate].
    apply in_app_or in Hm as [Hm | Hm];
      [apply resolve_events_role in Hm; discriminate|].
    apply in_app_or in Hm as [Hm | [Hm | []]];
      [apply version_events_role in Hm; discriminate|].
    unfold version_events in Hv.
    destruct (version_label t) as [label|] eqn:El; [|contradiction].
    destruct Hv as [Hv | []].
    injection Hv as _ ->. injection Hm as _ ->.
    exists label, cwd, presence, other; split; [reflexivity|].
    cbn [conclude version_of]; rewrite El, Hrc; reflexivity.
Qed.

Ltac use_facts :=
  repeat (match goal with
          | E : truthy (strip _) = _ |- _ => rewrite E
          | E : supplied _ = _ |- _ => rewrite E
          | E : getcwd _ = _ |- _ => rewrite E
          | E : path_exists _ _ = _ |- _ => rewrite E
          | E : Path_exists _ _ _ = _ |- _ => rewrite E
          | E : resolved _ _ = _ |- _ => rewrite E
          | E : fst (spawn _ bun_probe) = _ |- _ => rewrite E
          end; cbn [fst snd negb app]).

Ltac unfold_tools :=
  unfold run, tool_command, uv_command, npm_command, npm_probe, npx_command,
    npx_probe, yarn_command, yarn_probe, bun_command, bun_project,
    in_directory.

Lemma resolved_executable_bun (w : World) exe :
  resolved_executable Bun w = Ok exe ->
  resolved (snd (spawn w bun_probe)) (fst (spawn w bun_probe)) = Ok exe.
Proof.
  unfold resolved_executable; now destruct (spawn w bun_probe).
Qed.

(** X7.  With no directory supplied, when [os.getcwd()] raises
    [FileNotFoundError] (the current directory is gone), a tool
    reports that its executable was not found, although it has not
    tried to start the command: no version query and no main command
    is started. *)
Theorem getcwd_failure (t : tool) command directory timeout w exe msg :
  t = Yarn \/ truthy (strip command) = true ->
  resolved_executable t w = Ok exe ->
  supplied directory = None ->
  getcwd (world_at_directory_check t w) = Raise (FileNotFoundError msg) ->
  outcome_of (run (tool_command t command directory timeout) w)
  = Ok (not_found_error t)
  /\ trace_of (run (tool_command t command directory timeout) w)
     = resolve_events t command w.
Proof.
  intros Hcmd Hexe Hsup Hcwd.
  destruct t; cbn [world_at_directory_check resolve_events] in *;
    try apply resolved_executable_bun in Hexe;
    (destruct Hcmd as [Hcmd | Hcmd]; [try discriminate | ]);
    unfold outcome_of, trace_of; unfold_tools; unfold_monad;
    use_facts; try rewrite resolve_bun_run; cbn [fst snd app];
    use_facts; split; reflexivity.
Qed.

(** X8.  When the lookup of [package.json], the first marker of
    [npm_command], [npx_command], [yarn_command] and [bun_command],
    raises (a permission error, say), the tool reports the exception
    and starts neither the version query nor the main command. *)
Theorem marker_lookup_failure (t : tool) command directory timeout w exe cwd msg :
  t <> Uv ->
  t = Yarn \/ truthy (strip command) = true ->
  resolved_executable t w = Ok exe ->
  working_directory directory (world_at_directory_check t w) cwd ->
  Path_exists (world_at_directory_check t w) cwd (lit "package.json")
  = Raise (OtherException msg) ->
  outcome_of (run (tool_command t command directory timeout) w)
  = Ok (lit "Error running " ++ tool_name t ++ lit " command: " ++ msg)
  /\ trace_of (run (tool_command t command directory timeout) w)
     = resolve_events t command w.
Proof.
  intros Ht Hcmd Hexe Hwd Hmarker.
  unfold working_directory in Hwd.
  destruct (supplied directory) as [d|] eqn:Hsup;
    [destruct Hwd as [Hd ->]|].
  all: destruct t; try congruence;
    cbn [world_at_directory_check resolve_events] in *;
    try apply resolved_executable_bun in Hexe;
    (destruct Hcmd as [Hcmd | Hcmd]; [try discriminate | ]);
    unfold outcome_of, trace_of; unfold_tools; unfold_monad;
    use_facts; try rewrite resolve_bun_run; cbn [fst snd app];
    use_facts; split; reflexivity.
Qed.

(** X9.  The probe of [bun_command] judges by launch alone: when the
    bare [bun] starts and exits, with whatever exit code and whatever
    is installed elsewhere, the main command is started as the bare
    [bun]. *)
Theorem bun_probe_success (command : pystr) directory timeout (w : World)
    probe_result ev :
  fst (spawn w bun_probe) = Ok probe_result ->
  In ev (trace_of (run (bun_command command directory timeout) w)) ->
  ev_role ev = MainCommand ->
  sp_argv (ev_spawn ev) = lit "bun" :: split command.
Proof.
  intros Hp Hin Hrole.
  apply (main_event_inv Bun) in Hin
    as (exe & cwd & v & p & o & Hexe & _ & _ & _ & Hsp & _); [|assumption].
  apply resolved_executable_bun in Hexe.
  rewrite Hp in Hexe; cbn [resolved] in Hexe.
  rewrite Hsp; cbn [sp_argv main_spawn]; congruence.
Qed.

(** X10.  When the probe of [bun_command] raises an exception other
    than not-found or timeout, the tool reports that exception and
    starts nothing else. *)
Theorem bun_probe_failure (command : pystr) directory timeout (w : World) msg :
  truthy (strip command) = true ->
  fst (spawn w bun_probe) = Raise (OtherException msg) ->
  outcome_of (run (bun_command command directory timeout) w)
  = Ok (lit "Error running bun command: " ++ msg)
  /\ trace_of (run (bun_command command directory timeout) w)
     = [ mkEvent ResolveProbe bun_probe (Raise (OtherException msg)) ].
Proof.
  intros Hcmd Hp.
  unfold outcome_of, trace_of; unfold_tools; unfold_monad.
  use_facts; rewrite resolve_bun_run; cbn [fst snd app].
  rewrite Hp; cbn [resolved fst snd]; split; reflexivity.
Qed.

Lemma split_from_word (w a : pystr) :
  forallb notspace a = true ->
  split_from w a = match rev w ++ a with [] => [] | _ :: _ => [rev w ++ a] end.
Proof.
  revert w; induction a as [|c a IH]; intros w Ha; cbn [split_from].
  - rewrite app_nil_r; destruct w as [|x w]; [reflexivity|].
    cbn [rev]; now destruct (rev w ++ [x]) eqn:E;
      [apply app_eq_nil in E as [_ E]; discriminate|].
  - cbn [forallb] in Ha; apply andb_prop in Ha as [Hc Ha].
    unfold notspace in Hc; destruct (isspace c); [discriminate|].
    rewrite (IH (c :: w) Ha); cbn [rev]; now rewrite <- app_assoc.
Qed.

Lemma split_word (a : pystr) :
  a <> [] -> forallb notspace a = true -> split a = [a].
Proof.
  intros Hne Ha; unfold split; rewrite split_from_word by assumption.
  cbn [rev app]; destruct a; [congruence | reflexivity].
Qed.

(** Words joined by single spaces split back into the same words. *)
Lemma split_join (words : list pystr) :
  Forall (fun a => a <> [] /\ forallb notspace a = true) words ->
  split (join (lit " ") words) = words.
Proof.
  induction 1 as [|a words [Hne Ha] Hwords IH]; [reflexivity|].
  destruct words as [|b words].
  - cbn [join]; now apply split_word.
  - change (join (lit " ") (a :: b :: words))
      with (a ++ lit " " ++ join (lit " ") (b :: words)).
    rewrite split_app by (discriminate || reflexivity).
    now rewrite IH, split_word.
Qed.

(** X11.  Round trip of the argument list: when the command text is a
    list of arguments joined by single spaces, none of them empty or
    holding whitespace, the main command receives exactly these
    arguments after the executable. *)
Theorem argv_round_trip (t : tool) (args : list pystr) directory timeout w ev :
  Forall (fun a => a <> [] /\ forallb notspace a = true) args ->
  In ev (trace_of (run (tool_command t (join (lit " ") args) directory timeout) w)) ->
  ev_role ev = MainCommand ->
  exists exe,
    resolved_executable t w = Ok exe
    /\ sp_argv (ev_spawn ev) = exe :: args.
Proof.
  intros Hargs Hin Hrole.
  apply main_event_inv in Hin
    as (exe & cwd & v & p & o & Hexe & _ & _ & _ & Hsp & _); [|assumption].
  exists exe; split; [exact Hexe|].
  rewrite Hsp; cbn [sp_argv main_spawn]; now rewrite split_join.
Qed.

(** X18.  Every child a tool starts runs under a timeout: 5 seconds
    for the probe of the bare [bun], 10 seconds for a version query,
    and the caller's timeout for the main command, which is the only
    child that runs in the working directory. *)
Theorem children_bounded (t : tool) command directory timeout w ev :
  In ev (trace_of (run (tool_command t command directory timeout) w)) ->
  match ev_role ev with
  | ResolveProbe =>
      t = Bun /\ sp_timeout (ev_spawn ev) = 5%Z /\ sp_cwd (ev_spawn ev) = None
  | VersionQuery =>
      (t = Yarn \/ t = Bun)
      /\ sp_timeout (ev_spawn ev) = 10%Z /\ sp_cwd (ev_spawn ev) = None
  | MainCommand =>
      sp_timeout (ev_spawn ev) = timeout /\ sp_cwd (ev_spawn ev) <> None
  end.
Proof.
  intros Hin.
  assert (Hprobe : forall e, In e (resolve_events t command w) ->
            ev_role e = ResolveProbe /\ t = Bun
            /\ sp_timeout (ev_spawn e) = 5%Z /\ sp_cwd (ev_spawn e) = None).
  { intros e He; destruct t; cbn [resolve_events] in He; try contradiction.
    destruct (truthy (strip command)); [|contradiction].
    destruct He as [<- | []]; cbn; auto. }
  pose proof (run_outline t command directory timeout w) as Ho.
  remember (outcome_of _) as r eqn:Er; remember (trace_of _) as tr eqn:Et.
  clear Er Et.
  destruct Ho as [report | exe cwd o_v presence other o_main _ _ _ _].
  - destruct (Hprobe ev Hin) as (-> & Hrest); exact Hrest.
  - apply in_app_or in Hin as [Hin | Hin].
    + destruct (Hprobe ev Hin) as (-> & Hrest); exact Hrest.
    + apply in_app_or in Hin as [Hin | [<- | []]].
      * unfold version_events in Hin.
        destruct (version_label t) eqn:El; [|contradiction].
        destruct Hin as [<- | []]; cbn.
        split; [destruct t; try discriminate; auto | auto].
      * cbn; split; [reflexivity | discriminate].
Qed.

End ToolRuns.

(** * [read_claude_logs] *)

Section LogFacts.

Context {World : Type} `{OS World} `{LogFiles World}.

Variable timeout_text : pystr -> pystr -> pystr.

Ltac unfold_monad :=
  unfold try_except, bind, ret, raise, subprocess_run, from_fs in *;
  cbn [fst snd] in *.

Lemma bind_from_fs {A B} (f : World -> fs_result A) (k : A -> M B)
    (s : World * list event) (a : A) :
  f (fst s) = Found a -> bind (from_fs f) k s = k a s.
Proof. intros Hf; unfold bind, from_fs; now rewrite Hf. Qed.







Lemma same_text_eq (a b : pystr) : same_text a b = true <-> a = b.
Proof.
  revert b; induction a as [|x a IH]; intros [|y b]; cbn; split;
    try discriminate; try reflexivity.
  - intros Hab; apply andb_prop in Hab as [Hx Ha].
    apply N.eqb_eq in Hx; apply IH in Ha; congruence.
  - intros Hab; injection Hab as -> ->.
    rewrite N.eqb_refl; cbn; now apply IH.
Qed.



(** The run that stops before the log files are read. *)
Lemma read_claude_logs_stops (log_type : pystr) (lines : Z) (w : World)
    (home : pystr) (found : bool) :
  Path_home w = Found home ->
  log_exists w (claude_log_dir home) = Found found ->
  found = false \/ log_files_of w (claude_log_dir home) log_type = None ->
  trace_of (run (read_claude_logs timeout_text log_type lines) w) = []
  /\ outcome_of (run (read_claude_logs timeout_text log_type lines) w)
     = Ok (if found
           then lit "Unknown log type: " ++ log_type
                ++ lit ". Use 'mcp', 'breathsmith', or 'all'"
           else lit "Claude log directory not found. Are you on macOS?").
Proof.
  intros Hhome Hdir Hwhy.
  unfold run, outcome_of, trace_of, read_claude_logs, log_files_of in *.
  unfold try_except.
  rewrite (bind_from_fs Path_home _ (w, []) home Hhome); cbv zeta.
  rewrite (bind_from_fs (fun w => log_exists w (claude_log_dir home)) _
             (w, []) found Hdir).
  destruct found; cbn [negb]; [|split; reflexivity].
  destruct Hwhy as [|Hwhy]; [discriminate|].
  destruct (same_text log_type (lit "breathsmith")); [discriminate|].
  destruct (same_text log_type (lit "mcp")); [discriminate|].
  destruct (same_text log_type (lit "all")); [discriminate|].
  split; reflexivity.
Qed.

(** X13.  [read_claude_logs] starts no child when the log directory is
    missing or the log type is unknown; a missing directory is
    reported first, also for an unknown log type. *)
Theorem logs_not_read (log_type : pystr) (lines : Z) (w : World)
    (home : pystr) (found : bool) :
  Path_home w = Found home ->
  log_exists w (claude_log_dir home) = Found found ->
  found = false \/ log_files_of w (claude_log_dir home) log_type = None ->
  trace_of (run (read_claude_logs timeout_text log_type lines) w) = []
  /\ outcome_of (run (read_claude_logs timeout_text log_type lines) w)
     = Ok (if found
           then lit "Unknown log type: " ++ log_type
                ++ lit ". Use 'mcp', 'breathsmith', or 'all'"
           else lit "Claude log directory not found. Are you on macOS?").
Proof. apply read_claude_logs_stops. Qed.


End LogFacts.

(** * The text of an OpenAI response *)

Section ResponseFacts.

Import Responses.

Lemma first_text_some (items : list content_item) (t : pystr) :
  first_text items = Some t <->
  exists skipped chosen rest,
    items = skipped ++ chosen :: rest
    /\ text chosen = Some t
    /\ Forall (fun c => text c = None) skipped.
Proof.
  induction items as [|c items IH]; cbn [first_text].
  - split; [discriminate|].
    intros (skipped & chosen & rest & E & _); now destruct skipped.
  - destruct (text c) as [t'|] eqn:Ec.
    + split.
      * intros [= ->]; exists [], c, items; auto.
      * intros (skipped & chosen & rest & E & Ht & Hs).
        destruct skipped as [|c' skipped]; cbn in E; injection E as -> ->.
        -- congruence.
        -- inversion Hs; congruence.
    + rewrite IH; split.
      * intros (skipped & chosen & rest & -> & Ht & Hs).
        exists (c :: skipped), chosen, rest; auto.
      * intros (skipped & chosen & rest & E & Ht & Hs).
        destruct skipped as [|c' skipped]; cbn in E; injection E as -> ->.
        -- congruence.
        -- inversion Hs; subst; exists skipped, chosen, rest; auto.
Qed.

Lemma first_text_none (items : list content_item) :
  first_text items = None <-> Forall (fun c => text c = None) items.
Proof.
  induction items as [|c items IH]; cbn [first_text].
  - split; auto.
  - destruct (text c) as [t|] eqn:Ec.
    + split; [discriminate|]; intros Hall; inversion Hall; congruence.
    + rewrite IH; split; [auto|]; intros Hall; now inversion Hall.
Qed.

Lemma item_text_none (item : output_item) :
  item_text item = None <-> textless item.
Proof.
  unfold item_text, textless.
  destruct (content item) as [[|c cs]|].
  - split; [|reflexivity]; intros _ items ci [= <-] [].
  - rewrite first_text_none, Forall_forall; split.
    + intros Hall items ci [= <-]; apply Hall.
    + intros Hall ci; now apply Hall.
  - split; [|reflexivity]; intros _ items ci; discriminate.
Qed.

Lemma first_item_text_app (before after : list output_item) :
  first_item_text (before ++ after)
  = match first_item_text before with
    | Some t => Some t
    | None => first_item_text after
    end.
Proof.
  induction before as [|item before IH]; cbn; [reflexivity|].
  now destruct (item_text item).
Qed.

Lemma first_item_text_none (items : list output_item) :
  first_item_text items = None <-> Forall textless items.
Proof.
  induction items as [|item items IH]; cbn [first_item_text].
  - split; auto.
  - destruct (item_text item) as [t|] eqn:Ei.
    + split; [discriminate|]; intros Hall; inversion Hall as [|? ? Hi _]; subst.
      apply item_text_none in Hi; congruence.
    + rewrite IH; split.
      * intros Hall; constructor; [now apply item_text_none | exact Hall].
      * intros Hall; now inversion Hall.
Qed.

(** X15.  The answer taken from a response is the text of the first
    content item with a text in the last output item that has one; the
    items after it have no text at all.  There is no answer exactly
    when no content item of any output item has a text. *)
Theorem response_text_spec (output : list output_item) :
  (forall t,
     response_text output = Some t <->
     exists before item after skipped chosen rest,
       output = before ++ item :: after
       /\ content item = Some (skipped ++ chosen :: rest)
       /\ text chosen = Some t
       /\ Forall (fun c => text c = None) skipped
       /\ Forall textless after)
  /\ (response_text output = None <-> Forall textless output).
Proof.
  unfold response_text; split.
  - intros t; split.
    + induction output as [|item output IH] using rev_ind; [discriminate|].
      rewrite rev_app_distr; cbn [rev app first_item_text].
      destruct (item_text item) as [t'|] eqn:Ei.
      * intros [= ->].
        unfold item_text in Ei.
        destruct (content item) as [[|c cs]|] eqn:Ec; try discriminate.
        apply first_text_some in Ei as (skipped & chosen & rest & E & Ht & Hs).
        exists output, item, [], skipped, chosen, rest.
        rewrite Ec, E; auto.
      * intros Hrest.
        destruct (IH Hrest)
          as (before & it & after & skipped & chosen & rest
              & -> & Hc & Ht & Hs & Ha).
        exists before, it, (after ++ [item]), skipped, chosen, rest.
        rewrite <- app_assoc; repeat split; auto.
        apply Forall_app; split; [exact Ha|].
        constructor; [now apply item_text_none | constructor].
    + intros (before & item & after & skipped & chosen & rest
              & -> & Hc & Ht & Hs & Ha).
      rewrite rev_app_distr; cbn [rev]; rewrite <- app_assoc.
      rewrite first_item_text_app.
      assert (Hafter : first_item_text (rev after) = None).
      { apply first_item_text_none, Forall_rev, Ha. }
      rewrite Hafter; cbn [app first_item_text].
      assert (Hitem : item_text item = Some t).
      { unfold item_text; rewrite Hc.
        destruct (skipped ++ chosen :: rest) as [|c cs] eqn:E;
          [now destruct skipped|].
        rewrite <- E; apply first_text_some; eauto 6. }
      now rewrite Hitem.
  - rewrite first_item_text_none; split; intros Hall.
    + rewrite <- (rev_involutive output); now apply Forall_rev.
    + now apply Forall_rev.
Qed.

End ResponseFacts.

(** * The rows of [sqlite_execute] *)

Section RowFacts.

Import Rows.

Lemma same_text_refl (a : pystr) : same_text a a = true.
Proof. induction a as [|x a IH]; cbn; [reflexivity|]. now rewrite N.eqb_refl. Qed.

Lemma equal_ignore_case_spec (a b : pystr) :
  equal_ignore_case a b = true <->
  a = b \/ (is_ascii a = true /\ is_ascii b = true
            /\ List.map ascii_lower a = List.map ascii_lower b).
Proof.
  unfold equal_ignore_case.
  rewrite orb_true_iff, !andb_true_iff, !same_text_eq; tauto.
Qed.

Lemma equal_ignore_case_refl (a : pystr) : equal_ignore_case a a = true.
Proof. apply equal_ignore_case_spec; now left. Qed.

(** The lookup of a name stops at the first column that matches. *)
Lemma row_item_found (before after : list pystr)
    (row_before row_after : list sql_value) (name col : pystr) (value : sql_value) :
  List.length row_before = List.length before ->
  Forall (fun earlier => equal_ignore_case col earlier = false) before ->
  equal_ignore_case col name = true ->
  row_item (before ++ name :: after) (row_before ++ value :: row_after) col
  = Some value.
Proof.
  revert row_before; induction before as [|n before IH];
    intros [|v row_before] Hlen Hnone Hmatch; try discriminate.
  - cbn; now rewrite Hmatch.
  - inversion Hnone as [|? ? Hn Hrest]; subst.
    cbn [app row_item]; rewrite Hn.
    apply IH; auto.
Qed.

Lemma distinct_names_earlier (before after : list pystr) (col : pystr) :
  distinct_names (before ++ col :: after) = true ->
  Forall (fun earlier => equal_ignore_case col earlier = false) before.
Proof.
  induction before as [|n before IH]; cbn [app distinct_names]; [constructor|].
  intros Hd; apply andb_prop in Hd as [Hn Hd].
  constructor; [|now apply IH].
  rewrite forallb_forall in Hn.
  assert (Hin : In col (before ++ col :: after))
    by (apply in_or_app; right; now left).
  specialize (Hn col Hin).
  now destruct (equal_ignore_case col n).
Qed.

Lemma cells_positional (columns : list pystr) (row : list sql_value) :
  distinct_names columns = true ->
  forall cols before row_before row_rest,
    columns = before ++ cols ->
    row = row_before ++ row_rest ->
    List.length row_before = List.length before ->
    List.length row_rest = List.length cols ->
    cells columns row cols = Some (List.map cell row_rest).
Proof.
  intros Hd; induction cols as [|col cols IH];
    intros before row_before [|v row_rest] Hc Hr Hlb Hlr; try discriminate.
  - reflexivity.
  - cbn [cells List.map].
    assert (Hitem : row_item columns row col = Some v).
    { subst columns row; apply row_item_found; auto.
      - eapply distinct_names_earlier; exact Hd.
      - apply equal_ignore_case_refl. }
    rewrite Hitem.
    rewrite (IH (before ++ [col]) (row_before ++ [v]) row_rest).
    + reflexivity.
    + now rewrite <- app_assoc.
    + now rewrite <- app_assoc.
    + rewrite !length_app; cbn; lia.
    + cbn in Hlr; lia.
Qed.


(** X17.  When no column name repeats an earlier one, the cells of a
    row are its values in column order, with [NULL] for [None]. *)
Theorem row_data_positional (columns : list pystr) (row : list sql_value) :
  List.length row = List.length columns ->
  distinct_names columns = true ->
  row_data columns row = Some (List.map cell row).
Proof.
  intros Hlen Hd; unfold row_data.
  now apply (cells_positional columns row Hd columns [] [] row).
Qed.

End RowFacts.

(** * The further properties on concrete runs *)

Section MoreRuns.

Import Scripted Worlds.

(** [npm install] in the project directory. *)
Lemma main_command_started_witness :
  (Npm = Yarn \/ truthy (strip (lit "install")) = true)
  /\ resolved_executable Npm npm_installs = Ok (lit "npm")
  /\ working_directory None (world_at_directory_check Npm npm_installs) (lit "/proj")
  /\ List.map (Path_exists (world_at_directory_check Npm npm_installs) (lit "/proj"))
       (marker_files Npm) = List.map Ok [true]
  /\ other_locks_at Npm (world_at_directory_check Npm npm_installs) (lit "/proj")
     = Ok false
  /\ outcome_of (run (tool_command Npm (lit "install") None 60) npm_installs)
     = Ok (join nl [ lit "Command: npm install";
                     lit "Directory: /proj";
                     lit "Package.json present: True";
                     lit "Exit code: 0";
                     [];
                     lit "STDOUT:";
                     lit "added 3 packages" ]).
Proof.
  assert (H1 : Npm = Yarn \/ truthy (strip (lit "install")) = true)
    by (right; reflexivity).
  assert (H2 : resolved_executable Npm npm_installs = Ok (lit "npm"))
    by reflexivity.
  assert (H3 : working_directory None (world_at_directory_check Npm npm_installs)
                 (lit "/proj")) by reflexivity.
  assert (H4 : List.map (Path_exists (world_at_directory_check Npm npm_installs)
                           (lit "/proj")) (marker_files Npm) = List.map Ok [true])
    by reflexivity.
  assert (H5 : other_locks_at Npm (world_at_directory_check Npm npm_installs)
                 (lit "/proj") = Ok false) by reflexivity.
  refine (conj H1 (conj H2 (conj H3 (conj H4 (conj H5 _))))).
  exact (proj1 (proj2
    (main_command_started Npm (lit "install") None 60 npm_installs
       (lit "npm") (lit "/proj") [true] false H1 H2 H3 H4 H5))).
Defined.

Lemma main_command_directory_witness :
  In (mkEvent MainCommand (main_spawn [lit "npm"; lit "install"] (lit "/proj") 60)
        (exited 0 "added 3 packages" ""))
     (trace_of (run (tool_command Npm (lit "install") (Some (lit "/proj")) 60)
                  npm_installs))
  /\ exists cwd,
       sp_cwd (main_spawn [lit "npm"; lit "install"] (lit "/proj") 60) = Some cwd
       /\ cwd = lit "/proj"
       /\ path_exists npm_installs (lit "/proj") = true.
Proof.
  assert (Hin :
    In (mkEvent MainCommand (main_spawn [lit "npm"; lit "install"] (lit "/proj") 60)
          (exited 0 "added 3 packages" ""))
       (trace_of (run (tool_command Npm (lit "install") (Some (lit "/proj")) 60)
                    npm_installs))) by (left; reflexivity).
  split; [exact Hin|].
  destruct (main_command_directory Npm (lit "install") (Some (lit "/proj")) 60
              npm_installs _ Hin eq_refl) as (cwd & Hsp & Hcwd & Hthere).
  exists cwd; auto.
Defined.

Lemma markers_before_command_witness :
  In (mkEvent MainCommand (main_spawn [lit "npm"; lit "install"] (lit "/proj") 60)
        (exited 0 "added 3 packages" ""))
     (trace_of (run (tool_command Npm (lit "install") None 60) npm_installs))
  /\ exists cwd presence,
       List.map (Path_exists (world_at_directory_check Npm npm_installs) cwd)
         (marker_files Npm) = List.map Ok presence.
Proof.
  assert (Hin :
    In (mkEvent MainCommand (main_spawn [lit "npm"; lit "install"] (lit "/proj") 60)
          (exited 0 "added 3 packages" ""))
       (trace_of (run (tool_command Npm (lit "install") None 60) npm_installs)))
    by (left; reflexivity).
  split; [exact Hin|].
  destruct (markers_before_command Npm (lit "install") None 60 npm_installs
              (main_spawn [lit "npm"; lit "install"] (lit "/proj") 60)
              (mkCompleted 0 (lit "added 3 packages") []) Hin)
    as (cwd & version & presence & other & _ & Hmarkers).
  exists cwd, presence; exact Hmarkers.
Defined.

Lemma main_failure_report_witness :
  In (mkEvent MainCommand (main_spawn [lit "npm"; lit "install"] (lit "/proj") 60)
        (Raise (FileNotFoundError
                  (lit "[Errno 2] No such file or directory: 'npm'"))))
     (trace_of (run (tool_command Npm (lit "install") None 60) npm_absent))
  /\ outcome_of (run (tool_command Npm (lit "install") None 60) npm_absent)
     = Ok (not_found_error Npm).
Proof.
  assert (Hin :
    In (mkEvent MainCommand (main_spawn [lit "npm"; lit "install"] (lit "/proj") 60)
          (Raise (FileNotFoundError
                    (lit "[Errno 2] No such file or directory: 'npm'"))))
       (trace_of (run (tool_command Npm (lit "install") None 60) npm_absent)))
    by (left; reflexivity).
  split; [exact Hin|].
  exact (main_failure_report Npm (lit "install") None 60 npm_absent _ _ Hin).
Defined.

Lemma version_shown_witness :
  In (mkEvent VersionQuery (version_spawn (lit "yarn"))
        (Ok (mkCompleted 0 (lit "1.22.19" ++ nl) [])))
     (trace_of (run (tool_command Yarn (lit "install") None 60) yarn_installed))
  /\ returncode (mkCompleted 0 (lit "1.22.19" ++ nl) []) = 0%Z
  /\ In (mkEvent MainCommand (main_spawn [lit "yarn"; lit "install"] (lit "/proj") 60)
           (exited 0 "Done in 0.05s." ""))
        (trace_of (run (tool_command Yarn (lit "install") None 60) yarn_installed))
  /\ exists label cwd presence other_locks,
       version_label Yarn = Some label
       /\ outcome_of (run (tool_command Yarn (lit "install") None 60) yarn_installed)
          = Ok (assemble (command_line Yarn (lit "install")) cwd
                  (Some (label, strip (lit "1.22.19" ++ nl)))
                  (combine (marker_labels Yarn) presence) other_locks
                  (mkCompleted 0 (lit "Done in 0.05s.") [])).
Proof.
  assert (Hv :
    In (mkEvent VersionQuery (version_spawn (lit "yarn"))
          (Ok (mkCompleted 0 (lit "1.22.19" ++ nl) [])))
       (trace_of (run (tool_command Yarn (lit "install") None 60) yarn_installed)))
    by (left; reflexivity).
  assert (Hm :
    In (mkEvent MainCommand (main_spawn [lit "yarn"; lit "install"] (lit "/proj") 60)
          (exited 0 "Done in 0.05s." ""))
       (trace_of (run (tool_command Yarn (lit "install") None 60) yarn_installed)))
    by (right; left; reflexivity).
  refine (conj Hv (conj eq_refl (conj Hm _))).
  exact (version_shown Yarn (lit "install") None 60 yarn_installed _ _ _ _
           Hv eq_refl Hm).
Defined.

Lemma getcwd_failure_witness :
  (Npm = Yarn \/ truthy (strip (lit "install")) = true)
  /\ resolved_executable Npm cwd_gone = Ok (lit "npm")
  /\ supplied None = None
  /\ getcwd (world_at_directory_check Npm cwd_gone)
     = Raise (FileNotFoundError (lit "[Errno 2] No such file or directory"))
  /\ outcome_of (run (tool_command Npm (lit "install") None 60) cwd_gone)
     = Ok (not_found_error Npm)
  /\ trace_of (run (tool_command Npm (lit "install") None 60) cwd_gone)
     = resolve_events Npm (lit "install") cwd_gone.
Proof.
  assert (H1 : Npm = Yarn \/ truthy (strip (lit "install")) = true)
    by (right; reflexivity).
  refine (conj H1 (conj eq_refl (conj eq_refl (conj eq_refl _)))).
  exact (getcwd_failure Npm (lit "install") None 60 cwd_gone (lit "npm") _
           H1 eq_refl eq_refl eq_refl).
Defined.

Lemma marker_lookup_failure_witness :
  Npm <> Uv
  /\ (Npm = Yarn \/ truthy (strip (lit "install")) = true)
  /\ resolved_executable Npm (mkLocked []) = Ok (lit "npm")
  /\ working_directory None (world_at_directory_check Npm (mkLocked []))
       (lit "/locked")
  /\ Path_exists (world_at_directory_check Npm (mkLocked [])) (lit "/locked")
       (lit "package.json") = Raise (OtherException denied)
  /\ outcome_of (run (tool_command Npm (lit "install") None 60) (mkLocked []))
     = Ok (lit "Error running " ++ tool_name Npm ++ lit " command: " ++ denied)
  /\ trace_of (run (tool_command Npm (lit "install") None 60) (mkLocked []))
     = resolve_events Npm (lit "install") (mkLocked []).
Proof.
  assert (H0 : Npm <> Uv) by discriminate.
  assert (H1 : Npm = Yarn \/ truthy (strip (lit "install")) = true)
    by (right; reflexivity).
  refine (conj H0 (conj H1 (conj eq_refl (conj eq_refl (conj eq_refl _))))).
  exact (marker_lookup_failure Npm (lit "install") None 60 (mkLocked [])
           (lit "npm") (lit "/locked") denied H0 H1 eq_refl eq_refl eq_refl).
Defined.

Lemma bun_probe_success_witness :
  fst (spawn bun_probe_exits_1 bun_probe) = exited 1 "" "error"
  /\ In (mkEvent MainCommand (main_spawn [lit "bun"; lit "install"] (lit "/proj") 60)
           (exited 0 "done" ""))
        (trace_of (run (bun_command (lit "install") None 60) bun_probe_exits_1))
  /\ sp_argv (main_spawn [lit "bun"; lit "install"] (lit "/proj") 60)
     = lit "bun" :: split (lit "install").
Proof.
  assert (Hin :
    In (mkEvent MainCommand (main_spawn [lit "bun"; lit "install"] (lit "/proj") 60)
          (exited 0 "done" ""))
       (trace_of (run (bun_command (lit "install") None 60) bun_probe_exits_1)))
    by (right; right; left; reflexivity).
  refine (conj eq_refl (conj Hin _)).
  exact (bun_probe_success (lit "install") None 60 bun_probe_exits_1
           (mkCompleted 1 [] (lit "error")) _ eq_refl Hin eq_refl).
Defined.

Lemma bun_probe_failure_witness :
  truthy (strip (lit "install")) = true
  /\ fst (spawn bun_denied bun_probe)
     = Raise (OtherException (lit "[Errno 13] Permission denied: 'bun'"))
  /\ outcome_of (run (bun_command (lit "install") None 60) bun_denied)
     = Ok (lit "Error running bun command: "
           ++ lit "[Errno 13] Permission denied: 'bun'").
Proof.
  refine (conj eq_refl (conj eq_refl _)).
  exact (proj1 (bun_probe_failure (lit "install") None 60 bun_denied _
                  eq_refl eq_refl)).
Defined.

Lemma argv_round_trip_witness :
  Forall (fun a => a <> [] /\ forallb notspace a = true)
    [lit "add"; lit "--dev"; lit "jest"]
  /\ In (mkEvent MainCommand
           (main_spawn [lit "npm"; lit "add"; lit "--dev"; lit "jest"] (lit "/proj") 60)
           (exited 0 "added 3 packages" ""))
        (trace_of (run (tool_command Npm
                          (join (lit " ") [lit "add"; lit "--dev"; lit "jest"])
                          None 60) npm_installs))
  /\ exists exe,
       resolved_executable Npm npm_installs = Ok exe
       /\ sp_argv (main_spawn [lit "npm"; lit "add"; lit "--dev"; lit "jest"]
                     (lit "/proj") 60)
          = exe :: [lit "add"; lit "--dev"; lit "jest"].
Proof.
  assert (Hargs : Forall (fun a => a <> [] /\ forallb notspace a = true)
                    [lit "add"; lit "--dev"; lit "jest"])
    by (repeat constructor; discriminate).
  assert (Hin :
    In (mkEvent MainCommand
          (main_spawn [lit "npm"; lit "add"; lit "--dev"; lit "jest"] (lit "/proj") 60)
          (exited 0 "added 3 packages" ""))
       (trace_of (run (tool_command Npm
                         (join (lit " ") [lit "add"; lit "--dev"; lit "jest"])
                         None 60) npm_installs)))
    by (left; reflexivity).
  refine (conj Hargs (conj Hin _)).
  exact (argv_round_trip Npm [lit "add"; lit "--dev"; lit "jest"] None 60
           npm_installs _ Hargs Hin eq_refl).
Defined.


Lemma logs_not_read_witness :
  Path_home mac_first_tail_hangs = Found (lit "/Users/dev")
  /\ log_exists mac_first_tail_hangs (claude_log_dir (lit "/Users/dev")) = Found true
  /\ (true = false
      \/ log_files_of mac_first_tail_hangs (claude_log_dir (lit "/Users/dev"))
           (lit "desktop") = None)
  /\ trace_of (run (read_claude_logs no_timeout_text (lit "desktop") 20)
                 mac_first_tail_hangs) = [].
Proof.
  assert (H3 : true = false
               \/ log_files_of mac_first_tail_hangs
                    (claude_log_dir (lit "/Users/dev")) (lit "desktop") = None)
    by (right; reflexivity).
  refine (conj eq_refl (conj eq_refl (conj H3 _))).
  exact (proj1 (logs_not_read no_timeout_text (lit "desktop") 20
                  mac_first_tail_hangs (lit "/Users/dev") true
                  eq_refl eq_refl H3)).
Defined.



Lemma row_data_positional_witness :
  List.length [Rows.SqlValue (lit "1"); Rows.SqlNull]
  = List.length [lit "id"; lit "name"]
  /\ Rows.distinct_names [lit "id"; lit "name"] = true
  /\ Rows.row_data [lit "id"; lit "name"] [Rows.SqlValue (lit "1"); Rows.SqlNull]
     = Some [lit "1"; lit "NULL"].
Proof.
  refine (conj eq_refl (conj eq_refl _)).
  exact (row_data_positional [lit "id"; lit "name"]
           [Rows.SqlValue (lit "1"); Rows.SqlNull] eq_refl eq_refl).
Defined.

Lemma children_bounded_witness :
  In (mkEvent VersionQuery (version_spawn (lit "yarn"))
        (Ok (mkCompleted 0 (lit "1.22.19" ++ nl) [])))
     (trace_of (run (tool_command Yarn (lit "install") None 60) yarn_installed))
  /\ sp_timeout (version_spawn (lit "yarn")) = 10%Z.
Proof.
  assert (Hin :
    In (mkEvent VersionQuery (version_spawn (lit "yarn"))
          (Ok (mkCompleted 0 (lit "1.22.19" ++ nl) [])))
       (trace_of (run (tool_command Yarn (lit "install") None 60) yarn_installed)))
    by (left; reflexivity).
  split; [exact Hin|].
  exact (proj1 (proj2
    (children_bounded Yarn (lit "install") None 60 yarn_installed _ Hin))).
Defined.

End MoreRuns.
